(** * A modular engine skeleton: host loader, graphics interface, DirectX11 backend

    Shallow embedding of the repository's C++ sources:

    - [Cpp]           what the sources take from the language and its
                      library (pointers, exceptions, [std::vector]);
    - [CommonTypes]   Core/CommonTypes.h, Core/IGraphics.h, Core/IModule.h
                      (value types, handles, result codes, module metadata);
    - [Backend]       modules/graphics/GraphicsModule.{h,cpp}
                      (the DirectX11 implementation and the DLL exports);
    - [Host]          the host application ([Application::Run] and [main]);
    - [Fixtures]      concrete platforms, drivers and modules for the
                      examples.

    Conventions.  A C++ pointer is an [option] of an address ([None] is
    [nullptr]).  Fixed-width unsigned integers are [Z] with the wrap-around
    written out.  [float32] is IEEE-754 binary32, taken from the Standard
    Library's [SpecFloat] at precision 24 and maximal exponent 128.  Calls
    into the platform (Win32 loader, Direct3D) are not part of the
    repository: their observable results are inputs of the embedded
    functions. *)

From Stdlib Require Import ZArith Lia List String.
From Stdlib Require Import Floats.SpecFloat.
From stdpp Require Import gmap strings list.

(* ===================================================================== *)
(** * The parts of C++ the sources rely on                                *)
(* ===================================================================== *)

Module Cpp.

(** Addresses of objects. *)
Definition Addr := positive.

(** A member that the code never assigns holds an indeterminate value. *)
Inductive Member (A : Type) :=
| Indeterminate
| Holds (a : A).
Arguments Indeterminate {A}.
Arguments Holds {A} a.

(** ** Results of a call *)

Inductive CppException := length_error.

(** A call returns, leaves by an exception, or has no defined behaviour
    (a member call through a null pointer, a [delete] of an address that
    holds no object). *)
Inductive Completion (A : Type) :=
| Normal (a : A)
| Throws (e : CppException)
| Undefined.
Arguments Normal {A} a.
Arguments Throws {A} e.
Arguments Undefined {A}.

(** ** [std::vector] *)

Section Vector.
(** [max_size()] of the vector: the largest number of elements the
    implementation lets it hold. *)
Variable max_size : Z.
Context {A : Type}.

(** [size()], a [size_t]. *)
Definition size (v : list A) : Z := Z.of_nat (length v).

(** [push_back] appends at the end, or throws when the vector is full. *)
Definition push_back (v : list A) (x : A) : Completion (list A) :=
  if (size v <? max_size)%Z then Normal (v ++ [x]) else Throws length_error.
End Vector.

End Cpp.

(* ===================================================================== *)
(** * Core/CommonTypes.h, Core/IGraphics.h, Core/IModule.h                *)
(* ===================================================================== *)

Module CommonTypes.
Import Cpp.

(** ** Primitive types *)

Definition uint32_modulus : Z := 2 ^ 32.
Definition uint64_modulus : Z := 2 ^ 64.

(** Conversion to [uint64]: reduction modulo [2^64]. *)
Definition to_uint64 (z : Z) : Z := (z mod uint64_modulus)%Z.

(** [float32]: binary32 values and the operations the headers use. *)
Definition float32 := spec_float.
Definition f32_prec : Z := 24.
Definition f32_emax : Z := 128.

Definition f32_add : float32 -> float32 -> float32 := SFadd f32_prec f32_emax.
Definition f32_sub : float32 -> float32 -> float32 := SFsub f32_prec f32_emax.
Definition f32_mul : float32 -> float32 -> float32 := SFmul f32_prec f32_emax.
Definition f32_div : float32 -> float32 -> float32 := SFdiv f32_prec f32_emax.
Definition sqrtf : float32 -> float32 := SFsqrt f32_prec f32_emax.
(** [a > b] on floats is [b < a]; any comparison with a NaN is false. *)
Definition f32_gt (a b : float32) : bool := SFltb b a.
Definition f32_ge (a b : float32) : bool := SFleb b a.
Definition f32_le (a b : float32) : bool := SFleb a b.

(** The integer literal [0] converted to [float32]. *)
Definition f32_zero : float32 := S754_zero false.
(** An integer literal converted to [float32]. *)
Definition f32_of_Z (n : Z) : float32 := binary_normalize f32_prec f32_emax n 0 false.
(** A decimal literal [num/den] with the [f] suffix: the binary32 value
    nearest to the quotient (both parts are exactly representable in the
    uses below, so the correctly rounded division gives that value). *)
Definition f32_lit (num den : Z) : float32 := f32_div (f32_of_Z num) (f32_of_Z den).

(** A float is a divisor one must not divide by when it is a zero of either
    sign. *)
Definition f32_is_zero (a : float32) : bool :=
  match a with S754_zero _ => true | _ => false end.

(** ** Math types *)

Record Vector2 := mkVector2 { v2x : float32; v2y : float32 }.

Module Vector2.
Definition default : Vector2 := mkVector2 f32_zero f32_zero.
Definition add (a b : Vector2) := mkVector2 (f32_add (v2x a) (v2x b)) (f32_add (v2y a) (v2y b)).
Definition sub (a b : Vector2) := mkVector2 (f32_sub (v2x a) (v2x b)) (f32_sub (v2y a) (v2y b)).
Definition scale (a : Vector2) (s : float32) := mkVector2 (f32_mul (v2x a) s) (f32_mul (v2y a) s).
Definition Length (a : Vector2) : float32 :=
  sqrtf (f32_add (f32_mul (v2x a) (v2x a)) (f32_mul (v2y a) (v2y a))).
Definition Normalized (a : Vector2) : Vector2 :=
  let len := Length a in
  if f32_gt len f32_zero
  then mkVector2 (f32_div (v2x a) len) (f32_div (v2y a) len)
  else default.
End Vector2.

Record Vector3 := mkVector3 { v3x : float32; v3y : float32; v3z : float32 }.

Module Vector3.
Definition default : Vector3 := mkVector3 f32_zero f32_zero f32_zero.
Definition add (a b : Vector3) :=
  mkVector3 (f32_add (v3x a) (v3x b)) (f32_add (v3y a) (v3y b)) (f32_add (v3z a) (v3z b)).
Definition sub (a b : Vector3) :=
  mkVector3 (f32_sub (v3x a) (v3x b)) (f32_sub (v3y a) (v3y b)) (f32_sub (v3z a) (v3z b)).
Definition scale (a : Vector3) (s : float32) :=
  mkVector3 (f32_mul (v3x a) s) (f32_mul (v3y a) s) (f32_mul (v3z a) s).
Definition Length (a : Vector3) : float32 :=
  sqrtf (f32_add (f32_add (f32_mul (v3x a) (v3x a)) (f32_mul (v3y a) (v3y a)))
                 (f32_mul (v3z a) (v3z a))).
Definition Normalized (a : Vector3) : Vector3 :=
  let len := Length a in
  if f32_gt len f32_zero
  then mkVector3 (f32_div (v3x a) len) (f32_div (v3y a) len) (f32_div (v3z a) len)
  else default.
End Vector3.

Record Color := mkColor { cr : float32; cg : float32; cb : float32; ca : float32 }.

Record Rectangle := mkRectangle {
  rx : float32; ry : float32; rwidth : float32; rheight : float32
}.

Module Rectangle.
Definition default : Rectangle := mkRectangle f32_zero f32_zero f32_zero f32_zero.
Definition Contains (r : Rectangle) (point : Vector2) : bool :=
  f32_ge (v2x point) (rx r) && f32_le (v2x point) (f32_add (rx r) (rwidth r)) &&
  f32_ge (v2y point) (ry r) && f32_le (v2y point) (f32_add (ry r) (rheight r)).
End Rectangle.

(** [a == b] on floats. *)
Definition f32_eq (a b : float32) : bool := SFeqb a b.

Definition f32_is_nan (a : float32) : bool :=
  match a with S754_nan => true | _ => false end.

(** The sign bit of a float is clear (NaN has none). *)
Definition f32_sign_clear (a : float32) : bool :=
  match a with
  | S754_nan => false
  | S754_zero s | S754_infinity s | S754_finite s _ _ => negb s
  end.

(** ** Result codes and module priorities *)

Inductive Result :=
| Success | Failure | FileNotFound | InvalidParameter
| OutOfMemory | NotInitialized | AlreadyInitialized | PlatformError.

Definition Result_value (r : Result) : Z :=
  match r with
  | Success => 0 | Failure => 1 | FileNotFound => 2 | InvalidParameter => 3
  | OutOfMemory => 4 | NotInitialized => 5 | AlreadyInitialized => 6
  | PlatformError => 7
  end.

Inductive ModulePriority := Core | System | Engine | Game | UI.

Definition ModulePriority_value (p : ModulePriority) : Z :=
  match p with
  | Core => 0 | System => 100 | Engine => 200 | Game => 300 | UI => 400
  end.

(** ** Graphics resource handles *)

Inductive TextureFormat :=
| R8_UNorm | RGBA8_UNorm | RGBA16_Float | Depth32_Float | BC1_UNorm | BC3_UNorm.

Inductive TextureUsage := Static | Dynamic | RenderTarget.

Record TextureHandle := mkTextureHandle { texture_id : Z }.
Record ShaderHandle := mkShaderHandle { shader_id : Z }.
Record MeshHandle := mkMeshHandle { mesh_id : Z }.

Module TextureHandle.
(** [TextureHandle() : id(0)] *)
Definition default : TextureHandle := mkTextureHandle 0.
Definition IsValid (h : TextureHandle) : bool := negb (texture_id h =? 0)%Z.
Definition eqb (a b : TextureHandle) : bool := (texture_id a =? texture_id b)%Z.
End TextureHandle.

Module ShaderHandle.
Definition default : ShaderHandle := mkShaderHandle 0.
Definition IsValid (h : ShaderHandle) : bool := negb (shader_id h =? 0)%Z.
Definition eqb (a b : ShaderHandle) : bool := (shader_id a =? shader_id b)%Z.
End ShaderHandle.

Module MeshHandle.
Definition default : MeshHandle := mkMeshHandle 0.
Definition IsValid (h : MeshHandle) : bool := negb (mesh_id h =? 0)%Z.
Definition eqb (a b : MeshHandle) : bool := (mesh_id a =? mesh_id b)%Z.
End MeshHandle.

(** Texture creation parameters; [width], [height] and [mipLevels] are
    [uint32]. *)
Record TextureDesc := mkTextureDesc {
  width : Z;
  height : Z;
  format : TextureFormat;
  usage : TextureUsage;
  mipLevels : Z;
  debugName : option string
}.

Module TextureDesc.
Definition default : TextureDesc := mkTextureDesc 0 0 RGBA8_UNorm Static 1 None.
End TextureDesc.

(** ** Module metadata (IModule.h) *)

Record ModuleInfo := mkModuleInfo {
  name : string;
  version : string;
  description : string;
  priority : ModulePriority;
  minimumApiVersion : Z
}.

End CommonTypes.

(* ===================================================================== *)
(** * modules/graphics/GraphicsModule.h and GraphicsModule.cpp            *)
(* ===================================================================== *)

Module Backend.
Import Cpp CommonTypes.

(** ** The platform seen from the backend *)

(** [HRESULT] is a signed 32-bit code; [SUCCEEDED(hr)] is [hr >= 0]. *)
Definition HRESULT := Z.
Definition SUCCEEDED (hr : HRESULT) : bool := (0 <=? hr)%Z.
Definition S_OK : HRESULT := 0%Z.
Definition E_FAIL : HRESULT := (-2147467259)%Z.

(** What one call of [D3D11CreateDevice(..., &m_Device, &featureLevel,
    &m_Context)] leaves behind: its return code and the contents of the two
    pointer out-parameters after the call. *)
Record DeviceCreation := mkDeviceCreation {
  dc_hr : HRESULT;
  dc_device : option Addr;
  dc_context : option Addr
}.


(** The fields of [D3D11_TEXTURE2D_DESC] that [CreateTexture] fills in; the
    others stay zero-initialised. *)
Inductive DXGI_FORMAT := DXGI_FORMAT_R8G8B8A8_UNORM.
Inductive D3D11_USAGE := D3D11_USAGE_DEFAULT.
Inductive D3D11_BIND := D3D11_BIND_SHADER_RESOURCE.

Record D3D11_TEXTURE2D_DESC := mkTexDesc {
  Width : Z;
  Height : Z;
  MipLevels : Z;
  ArraySize : Z;
  Format : DXGI_FORMAT;
  SampleDesc_Count : Z;
  Usage : D3D11_USAGE;
  BindFlags : D3D11_BIND
}.

(** What one call of [device->CreateTexture2D(&texDesc, nullptr, &texture)]
    leaves behind: its return code and the content of [texture], which is
    [nullptr] before the call. *)
Record TextureCreation := mkTextureCreation {
  tc_hr : HRESULT;
  tc_texture : option Addr
}.

(** The Direct3D driver: the answer of a device to a texture request. *)
Definition Driver := Addr -> D3D11_TEXTURE2D_DESC -> TextureCreation.

(** ** Internal data structures *)

Record TextureData := mkTextureData {
  texture : option Addr;              (* ID3D11Texture2D* *)
  view : Member (option Addr);        (* ID3D11ShaderResourceView* *)
  td_width : Z;
  td_height : Z
}.

(** The private members of [class GraphicsModule]. *)
Record GraphicsModule := mkGraphicsModule {
  m_Device : option Addr;
  m_Context : option Addr;
  m_Initialized : bool
}.

(** The process-wide state the backend works on: the objects created with
    [new GraphicsModule()] and the file-static texture list [s_Textures],
    which all instances share. *)
Record World := mkWorld {
  heap : gmap Addr GraphicsModule;
  s_Textures : list TextureData
}.

(** ** Member functions defined in the sources *)

(** [GraphicsModule::GraphicsModule()] *)
Definition constructor : GraphicsModule := mkGraphicsModule None None false.

Definition GetName (this : GraphicsModule) : string := "DirectX11 Graphics".
Definition GetVersion (this : GraphicsModule) : string := "1.0.0".
Definition GetPriority (this : GraphicsModule) : ModulePriority := System.
Definition IsInitialized (this : GraphicsModule) : bool := m_Initialized this.

(** [InitializeDirectX]: the native call writes straight into [m_Device]
    and [m_Context]; the result is [SUCCEEDED(hr)]. *)
Definition InitializeDirectX (native : DeviceCreation) (this : GraphicsModule)
  : bool * GraphicsModule :=
  (SUCCEEDED (dc_hr native),
   mkGraphicsModule (dc_device native) (dc_context native) (m_Initialized this)).

(** [Initialize(app)]: [app] is not used; [native] is consulted only when
    the device is created. *)
Definition Initialize (native : DeviceCreation) (app : option Addr)
    (this : GraphicsModule) : Result * GraphicsModule :=
  if m_Initialized this then (AlreadyInitialized, this)
  else
    let '(ok, this1) := InitializeDirectX native this in
    if negb ok then (Failure, this1)
    else (Success, mkGraphicsModule (m_Device this1) (m_Context this1) true).

Section CreateTexture.
Variable max_size : Z.
Variable driver : Driver.

Definition texDesc_of (desc : TextureDesc) : D3D11_TEXTURE2D_DESC :=
  {| Width := width desc;
     Height := height desc;
     MipLevels := mipLevels desc;
     ArraySize := 1;
     Format := DXGI_FORMAT_R8G8B8A8_UNORM;
     SampleDesc_Count := 1;
     Usage := D3D11_USAGE_DEFAULT;
     BindFlags := D3D11_BIND_SHADER_RESOURCE |}.

(** [CreateTexture] reads the instance and works on the shared list; the
    handle is the list's size after the insertion, converted from
    [size_t] to [uint64]. *)
Definition CreateTexture (desc : TextureDesc) (this : GraphicsModule)
    (textures : list TextureData)
  : Completion (TextureHandle * list TextureData) :=
  if negb (m_Initialized this) then Normal (TextureHandle.default, textures)
  else
    match m_Device this with
    | None => Undefined
    | Some device =>
      let texDesc := texDesc_of desc in
      let r := driver device texDesc in
      if SUCCEEDED (tc_hr r) then
        let data := {| texture := tc_texture r;
                       view := Indeterminate;
                       td_width := width desc;
                       td_height := height desc |} in
        match push_back max_size textures data with
        | Normal textures' =>
            Normal (mkTextureHandle (to_uint64 (size textures')), textures')
        | Throws e => Throws e
        | Undefined => Undefined
        end
      else Normal (TextureHandle.default, textures)
    end.
End CreateTexture.

(** ** Sequences of calls *)

(** [Initialize] called once for each native outcome in turn. *)
Definition initialize_all (natives : list DeviceCreation) (this : GraphicsModule)
  : GraphicsModule :=
  fold_left (fun this native => snd (Initialize native None this)) natives this.

(** ** Member functions declared in the class but defined nowhere in the
       sources *)

(** Modelled from the spec: [GraphicsModule::CleanupDirectX] is only declared
    in GraphicsModule.h.  The spec has the shutdown "release the
    device/context": afterwards the module holds neither. *)
Definition CleanupDirectX (this : GraphicsModule) : GraphicsModule :=
  mkGraphicsModule None None (m_Initialized this).

(** Modelled from the spec: [GraphicsModule::Shutdown] is only declared in
    GraphicsModule.h.  The spec: "Shutdown must release the device/context
    and clear the resource table; calling it when not initialized must be a
    no-op", and "Shutdown must restore false". *)
Definition Shutdown (this : GraphicsModule) (textures : list TextureData)
  : GraphicsModule * list TextureData :=
  if m_Initialized this then
    let this1 := CleanupDirectX this in
    (mkGraphicsModule (m_Device this1) (m_Context this1) false, [])
  else (this, textures).

(** Modelled from the spec: how the backend "maps handle -> internal
    resource" is written nowhere in the sources.  The table is "a flat
    sequential list" and a handle is the "current table length" at its
    creation, so a valid handle [h] designates position [h.id - 1]. *)
Definition texture_of (h : TextureHandle) (textures : list TextureData)
  : option TextureData :=
  if TextureHandle.IsValid h then textures !! Z.to_nat (texture_id h - 1) else None.

(** Modelled from the spec: [GraphicsModule::DestroyTexture] is only declared
    in GraphicsModule.h.  The spec: "destruction of an earlier entry would
    corrupt all handles allocated after it", and operations on a zero or
    unknown handle "must be no-ops": the designated entry is removed from
    the sequence, the later entries move down by one. *)
Definition DestroyTexture (h : TextureHandle) (textures : list TextureData)
  : list TextureData :=
  if TextureHandle.IsValid h && (texture_id h <=? size textures)%Z
  then delete (Z.to_nat (texture_id h - 1)) textures
  else textures.

(** [GraphicsModule::~GraphicsModule()] calls [Shutdown]. *)
Definition destructor (this : GraphicsModule) (textures : list TextureData)
  : GraphicsModule * list TextureData :=
  Shutdown this textures.

(** ** DLL exports *)

Module Exports.
(** [return new GraphicsModule();] at an address not in use. *)
Definition CreateModule (w : World) : option Addr * World :=
  let p := fresh (dom (heap w)) in
  (Some p, mkWorld (<[p := constructor]> (heap w)) (s_Textures w)).

(** [delete static_cast<GraphicsModule*>(module);]: nothing for a null
    pointer; otherwise the destructor runs on the object, then its
    storage is released. *)
Definition DestroyModule (module : option Addr) (w : World) : Completion World :=
  match module with
  | None => Normal w
  | Some p =>
    match heap w !! p with
    | None => Undefined
    | Some this =>
      let '(_, textures') := destructor this (s_Textures w) in
      Normal (mkWorld (delete p (heap w)) textures')
    end
  end.

Definition GetModuleInfo : ModuleInfo :=
  {| name := "DirectX11 Graphics";
     version := "1.0.0";
     description := "DirectX 11 rendering implementation";
     priority := System;
     minimumApiVersion := 1 |}.
End Exports.

End Backend.

(* ===================================================================== *)
(** * The host application                                                *)
(* ===================================================================== *)

Module Host.
Import Cpp CommonTypes.

(** ** The platform seen from the host *)

(** What the Win32 loader and the loaded library answer.  [LoadLibraryA]
    gives the library handle or null; [GetProcAddress] the address of an
    exported symbol or null; [invoke_create] is the pointer the library's
    factory returns when called through the resolved address;
    [dynamic_cast_IGraphics] is the result of
    [dynamic_cast<Engine::IGraphics*>] on that pointer. *)
Record Platform := mkPlatform {
  LoadLibraryA : string -> option Addr;
  GetProcAddress : Addr -> string -> option Addr;
  invoke_create : Addr -> option Addr;
  dynamic_cast_IGraphics : option Addr -> option Addr
}.

(** The calls and console output of the host, in program order. *)
Inductive Event :=
| cout (text : string)
| call_LoadLibraryA (file : string)
| call_GetProcAddress (dll : Addr) (symbol : string)
| call_createFunc (f : Addr)
| call_Initialize (graphics : Addr)
| call_Clear (graphics : Addr) (color : Color)
| call_DrawText (graphics : Addr) (text : string) (position : Vector3)
| call_Update (graphics : Addr) (deltaTime : float32)
| call_Shutdown (graphics : Addr)
| call_destroyFunc (f : Addr) (module : option Addr)
| call_FreeLibrary (dll : Addr).

(** [class Application]: both members are unassigned until [Run]. *)
Record Application := mkApplication {
  graphicsDLL : Member (option Addr);
  graphics : Member (option Addr)
}.

(** How far an execution got: [Returned] when [Run] has returned,
    [InLoop] when the steps granted were used up inside the game loop. *)
Inductive Progress := Returned | InLoop.

Record Execution := mkExecution {
  trace : list Event;
  app_after : Application;
  progress : Progress
}.

Definition newline : string := String (Ascii.ascii_of_nat 10) EmptyString.

(** ** [Application::Run] *)

Definition clear_color : Color :=
  mkColor (f32_lit 1 10) (f32_lit 2 10) (f32_lit 3 10) (f32_lit 1 1).
Definition text_position : Vector3 :=
  mkVector3 (f32_of_Z 10) (f32_of_Z 10) (f32_of_Z 0).
Definition frame_time : float32 := f32_lit 16 1000.

(** One pass through the body of [while (running)]. *)
Definition loop_body (g : Addr) : list Event :=
  [ call_Clear g clear_color;
    call_DrawText g "Hello Modular Engine!" text_position;
    call_Update g frame_time ].

(** [while (running) { ... }] for at most [fuel] tests of the condition.
    The body has no assignment to [running], so it is passed on unchanged.
    The result is the events and whether the loop was left. *)
Fixpoint game_loop (fuel : nat) (running : bool) (g : Addr) : list Event * bool :=
  match fuel with
  | O => ([], false)
  | S fuel' =>
    if running then
      let '(t, exited) := game_loop fuel' running g in (loop_body g ++ t, exited)
    else ([], true)
  end.

(** The statements between the end of the loop and the end of the
    [if (graphics)] block. *)
Definition after_loop (P : Platform) (dll g : Addr) : list Event :=
  [ call_Shutdown g; call_GetProcAddress dll "DestroyModule" ] ++
  match GetProcAddress P dll "DestroyModule" with
  | Some destroyFunc => [ call_destroyFunc destroyFunc (Some g) ]
  | None => []
  end.

Definition Run (P : Platform) (fuel : nat) (app : Application) : Execution :=
  let t0 := [ cout ("Loading graphics module..." +:+ newline);
              call_LoadLibraryA "GraphicsModule.dll" ] in
  let app := mkApplication (Holds (LoadLibraryA P "GraphicsModule.dll")) (graphics app) in
  match LoadLibraryA P "GraphicsModule.dll" with
  | None =>
    mkExecution (t0 ++ [ cout ("Failed to load GraphicsModule.dll!" +:+ newline) ])
                app Returned
  | Some dll =>
    let t1 := t0 ++ [ call_GetProcAddress dll "CreateModule" ] in
    match GetProcAddress P dll "CreateModule" with
    | None =>
      mkExecution (t1 ++ [ cout ("DLL doesn't have CreateModule function!" +:+ newline) ])
                  app Returned
    | Some createFunc =>
      let t2 := t1 ++ [ call_createFunc createFunc ] in
      let cast := dynamic_cast_IGraphics P (invoke_create P createFunc) in
      let app := mkApplication (graphicsDLL app) (Holds cast) in
      match cast with
      | Some g =>
        let running := true in
        let '(tloop, exited) := game_loop fuel running g in
        let t3 := t2 ++ [ call_Initialize g ] ++ tloop in
        if exited then
          mkExecution (t3 ++ after_loop P dll g ++ [ call_FreeLibrary dll ]) app Returned
        else
          mkExecution t3 app InLoop
      | None =>
        mkExecution (t2 ++ [ call_FreeLibrary dll ]) app Returned
      end
    end
  end.

(** [main]: a default-constructed [Application], then [Run]; the exit code
    is [0] once [Run] has returned. *)
Definition main (P : Platform) (fuel : nat) : Execution * option Z :=
  let e := Run P fuel (mkApplication Indeterminate Indeterminate) in
  (e, match progress e with Returned => Some 0%Z | InLoop => None end).

(** ** Predicates on events *)

Definition is_FreeLibrary (e : Event) : bool :=
  match e with call_FreeLibrary _ => true | _ => false end.

Definition is_Shutdown (e : Event) : bool :=
  match e with call_Shutdown _ => true | _ => false end.

Definition is_destroy (e : Event) : bool :=
  match e with call_destroyFunc _ _ => true | _ => false end.

(** The calls of a member function of the module. *)
Definition is_module_call (e : Event) : bool :=
  match e with
  | call_Initialize _ | call_Clear _ _ | call_DrawText _ _ _ | call_Update _ _
  | call_Shutdown _ => true
  | _ => false
  end.


(** ** Paths *)

(** The four ways through [Run]. *)
Inductive RunPath (P : Platform) (fuel : nat) (app : Application) : Prop :=
| path_no_library :
    LoadLibraryA P "GraphicsModule.dll" = None ->
    Run P fuel app
    = mkExecution
        [ cout ("Loading graphics module..." +:+ newline);
          call_LoadLibraryA "GraphicsModule.dll";
          cout ("Failed to load GraphicsModule.dll!" +:+ newline) ]
        (mkApplication (Holds None) (graphics app)) Returned ->
    RunPath P fuel app
| path_no_factory (dll : Addr) :
    LoadLibraryA P "GraphicsModule.dll" = Some dll ->
    GetProcAddress P dll "CreateModule" = None ->
    Run P fuel app
    = mkExecution
        [ cout ("Loading graphics module..." +:+ newline);
          call_LoadLibraryA "GraphicsModule.dll";
          call_GetProcAddress dll "CreateModule";
          cout ("DLL doesn't have CreateModule function!" +:+ newline) ]
        (mkApplication (Holds (Some dll)) (graphics app)) Returned ->
    RunPath P fuel app
| path_not_graphics (dll createFunc : Addr) :
    LoadLibraryA P "GraphicsModule.dll" = Some dll ->
    GetProcAddress P dll "CreateModule" = Some createFunc ->
    dynamic_cast_IGraphics P (invoke_create P createFunc) = None ->
    Run P fuel app
    = mkExecution
        [ cout ("Loading graphics module..." +:+ newline);
          call_LoadLibraryA "GraphicsModule.dll";
          call_GetProcAddress dll "CreateModule";
          call_createFunc createFunc;
          call_FreeLibrary dll ]
        (mkApplication (Holds (Some dll)) (Holds None)) Returned ->
    RunPath P fuel app
| path_game_loop (dll createFunc g : Addr) :
    LoadLibraryA P "GraphicsModule.dll" = Some dll ->
    GetProcAddress P dll "CreateModule" = Some createFunc ->
    dynamic_cast_IGraphics P (invoke_create P createFunc) = Some g ->
    Run P fuel app
    = mkExecution
        ([ cout ("Loading graphics module..." +:+ newline);
           call_LoadLibraryA "GraphicsModule.dll";
           call_GetProcAddress dll "CreateModule";
           call_createFunc createFunc;
           call_Initialize g ] ++ concat (repeat (loop_body g) fuel))
        (mkApplication (Holds (Some dll)) (Holds (Some g))) InLoop ->
    RunPath P fuel app.

End Host.

(* ===================================================================== *)
(** * Concrete inputs used by the examples                                *)
(* ===================================================================== *)

Module Fixtures.
Import Cpp CommonTypes Backend.

(** [max_size()] of [std::vector<TextureData>] on a 64-bit target, where a
    [TextureData] takes 24 bytes. *)
Definition max_size_64 : Z := (2 ^ 63 - 1) / 24.

(** A device creation that succeeds, one that fails and leaves both
    out-parameters null, and one that fails after the device was written. *)
Definition device_ok : DeviceCreation := mkDeviceCreation S_OK (Some 7%positive) (Some 8%positive).
Definition device_failed : DeviceCreation := mkDeviceCreation E_FAIL None None.
Definition device_failed_partial : DeviceCreation := mkDeviceCreation E_FAIL (Some 7%positive) None.

(** A driver that creates every texture, at an address taken from the
    requested width, and one that refuses every request. *)
Definition driver_ok : Driver :=
  fun _ texDesc => mkTextureCreation S_OK (Some (Z.to_pos (Width texDesc))).
Definition driver_refusing : Driver :=
  fun _ _ => mkTextureCreation E_FAIL None.

Definition desc_of_width (w : Z) : TextureDesc :=
  mkTextureDesc w w RGBA8_UNorm Static 1 None.

(** The entry [CreateTexture] stores for [desc_of_width w] under
    [driver_ok]. *)
Definition data_of_width (w : Z) : TextureData :=
  mkTextureData (Some (Z.to_pos w)) Indeterminate w w.

(** A module after a successful [Initialize]. *)
Definition initialized_module : GraphicsModule := mkGraphicsModule (Some 7%positive) (Some 8%positive) true.

(** A second initialised instance, on another device. *)
Definition initialized_module_2 : GraphicsModule := mkGraphicsModule (Some 9%positive) (Some 10%positive) true.

(** Two descriptions that differ in format, usage and debug name only. *)
Definition desc_plain : TextureDesc := mkTextureDesc 64 32 RGBA8_UNorm Static 3 None.
Definition desc_depth : TextureDesc :=
  mkTextureDesc 64 32 Depth32_Float RenderTarget 3 (Some "shadow map"%string).

(** A platform whose library creates an object that is not an [IGraphics],
    and one on which the library does not load. *)
Definition platform_wrong_type : Host.Platform :=
  Host.mkPlatform
    (fun _ => Some 100%positive)
    (fun _ _ => Some 201%positive)
    (fun _ => Some 5%positive)
    (fun _ => None).
Definition platform_no_library : Host.Platform :=
  Host.mkPlatform (fun _ => None) (fun _ _ => None) (fun _ => None) (fun p => p).

Definition platform_without_create : Host.Platform :=
  Host.mkPlatform
    (fun _ => Some 100%positive)
    (fun _ _ => None)
    (fun _ => None)
    (fun p => p).
Definition fresh_application : Host.Application :=
  Host.mkApplication Indeterminate Indeterminate.

End Fixtures.

(* ===================================================================== *)
(** * Properties of the value types                                       *)
(* ===================================================================== *)

Section CommonTypesFacts.
Import Cpp CommonTypes.

(** The float literals of the host are the expected binary32 values
    (0x3DCCCCCD, 0x3E4CCCCD, 0x3E99999A, 0x3F800000, 0x3C83126F). *)
Example f32_literals :
  f32_lit 1 10 = S754_finite false 13421773 (-27) /\
  f32_lit 2 10 = S754_finite false 13421773 (-26) /\
  f32_lit 3 10 = S754_finite false 10066330 (-25) /\
  f32_lit 1 1 = S754_finite false 8388608 (-23) /\
  f32_lit 16 1000 = S754_finite false 8589935 (-29) /\
  f32_of_Z 10 = S754_finite false 10485760 (-20) /\
  f32_of_Z 0 = f32_zero.
Proof. vm_compute. repeat split; reflexivity. Qed.

(** The 3-4-5 triangle: length 5, unit vector (0.6f, 0.8f). *)
Example Vector2_Normalized_3_4 :
  Vector2.Length (mkVector2 (f32_of_Z 3) (f32_of_Z 4)) = f32_of_Z 5 /\
  Vector2.Normalized (mkVector2 (f32_of_Z 3) (f32_of_Z 4))
  = mkVector2 (f32_lit 6 10) (f32_lit 8 10).
Proof. vm_compute. split; reflexivity. Qed.

(** A vector whose squares underflow has length zero although it is not the
    zero vector; so has a vector with a NaN component a length that is not
    greater than zero. *)
Example Vector2_Normalized_underflow :
  let tiny := S754_finite false 8388608 (-123) in
  Vector2.Length (mkVector2 tiny f32_zero) = f32_zero /\
  Vector2.Normalized (mkVector2 tiny f32_zero) = Vector2.default /\
  Vector2.Normalized (mkVector2 S754_nan f32_zero) = Vector2.default.
Proof. vm_compute. repeat split; reflexivity. Qed.

(** A length that compares greater than zero is neither a zero nor a NaN. *)
Lemma f32_gt_zero_not_zero (len : float32) :
  f32_gt len f32_zero = true -> f32_is_zero len = false /\ len <> S754_nan.
Proof.
  destruct len as [s | s | | s m e]; simpl; intros H; split;
    try reflexivity; discriminate.
Qed.

(** C8.  [Vector2::Normalized] and [Vector3::Normalized] never divide by
    zero.  For a vector whose [Length()] is not greater than zero (a zero
    of either sign, or a NaN) the result is the zero vector and no division
    takes place; the component-wise division is the result only when the
    length compares greater than zero, and that divisor is then not a
    zero. *)
Theorem Normalized_never_divides_by_zero (a : Vector2) (b : Vector3) :
  (f32_gt (Vector2.Length a) f32_zero = false ->
     Vector2.Normalized a = Vector2.default) /\
  (f32_gt (Vector3.Length b) f32_zero = false ->
     Vector3.Normalized b = Vector3.default) /\
  (f32_gt (Vector2.Length a) f32_zero = true ->
     f32_is_zero (Vector2.Length a) = false /\
     Vector2.Normalized a =
       mkVector2 (f32_div (v2x a) (Vector2.Length a))
                 (f32_div (v2y a) (Vector2.Length a))) /\
  (f32_gt (Vector3.Length b) f32_zero = true ->
     f32_is_zero (Vector3.Length b) = false /\
     Vector3.Normalized b =
       mkVector3 (f32_div (v3x b) (Vector3.Length b))
                 (f32_div (v3y b) (Vector3.Length b))
                 (f32_div (v3z b) (Vector3.Length b))).
Proof.
  unfold Vector2.Normalized, Vector3.Normalized.
  split; [| split; [| split]].
  - intros ->. reflexivity.
  - intros ->. reflexivity.
  - intros E. rewrite E. split; [| reflexivity].
    apply (f32_gt_zero_not_zero _ E).
  - intros E. rewrite E. split; [| reflexivity].
    apply (f32_gt_zero_not_zero _ E).
Qed.

(** C8 at the zero vectors. *)
Lemma Normalized_never_divides_by_zero_witness :
  Vector2.Normalized (mkVector2 f32_zero f32_zero) = Vector2.default /\
  Vector3.Normalized (mkVector3 f32_zero f32_zero f32_zero) = Vector3.default.
Proof.
  pose proof (Normalized_never_divides_by_zero
                (mkVector2 f32_zero f32_zero)
                (mkVector3 f32_zero f32_zero f32_zero)) as (H2 & H3 & _).
  split; [apply H2 | apply H3]; reflexivity.
Defined.

End CommonTypesFacts.

(* ===================================================================== *)
(** * Properties of the graphics backend                                  *)
(* ===================================================================== *)

Section BackendFacts.
Import Cpp CommonTypes Backend.

(** ** Handles *)

(** The two paths of a first [Initialize], and the native failure path of
    [CreateTexture]. *)
Example Initialize_first_call :
  Initialize Fixtures.device_ok None constructor
  = (Success, Fixtures.initialized_module) /\
  Initialize Fixtures.device_failed None constructor = (Failure, constructor).
Proof. split; reflexivity. Qed.

Example CreateTexture_native_failure :
  CreateTexture Fixtures.max_size_64 Fixtures.driver_refusing
                (Fixtures.desc_of_width 16) Fixtures.initialized_module []
  = Normal (TextureHandle.default, []).
Proof. reflexivity. Qed.

Lemma size_app_one {A} (v : list A) (x : A) : size (v ++ [x]) = (size v + 1)%Z.
Proof. unfold size. rewrite length_app. simpl. lia. Qed.

Lemma size_nonneg {A} (v : list A) : (0 <= size v)%Z.
Proof. unfold size. lia. Qed.

(** The result of [CreateTexture] on its success path: the new entry at the
    end of the list, and the new size as handle. *)
Lemma CreateTexture_success (max_size : Z) (driver : Driver) (desc : TextureDesc)
    (this : GraphicsModule) (textures : list TextureData) (device : Addr) :
  m_Initialized this = true ->
  m_Device this = Some device ->
  SUCCEEDED (tc_hr (driver device (texDesc_of desc))) = true ->
  (size textures < max_size)%Z ->
  CreateTexture max_size driver desc this textures
  = Normal (mkTextureHandle (to_uint64 (size textures + 1)),
            textures ++ [mkTextureData (tc_texture (driver device (texDesc_of desc)))
                                       Indeterminate (width desc) (height desc)]).
Proof.
  intros Hi Hd Hs Hm. unfold CreateTexture, push_back.
  rewrite Hi, Hd, Hs. simpl.
  apply Z.ltb_lt in Hm. rewrite Hm. rewrite size_app_one. reflexivity.
Qed.

(** Every way [CreateTexture] can return. *)
Lemma CreateTexture_returns (max_size : Z) (driver : Driver) (desc : TextureDesc)
    (this : GraphicsModule) (textures textures' : list TextureData) (h : TextureHandle) :
  CreateTexture max_size driver desc this textures = Normal (h, textures') ->
  (h = TextureHandle.default /\ textures' = textures) \/
  ((size textures < max_size)%Z /\
   h = mkTextureHandle (to_uint64 (size textures + 1)) /\
   exists data, textures' = textures ++ [data]).
Proof.
  unfold CreateTexture, push_back. intros H.
  destruct (m_Initialized this); simpl in H.
  2:{ left. inversion H. auto. }
  destruct (m_Device this) as [device |]; [| discriminate].
  destruct (SUCCEEDED _).
  2:{ left. inversion H. auto. }
  destruct (size textures <? max_size)%Z eqn:E; [| discriminate].
  right. apply Z.ltb_lt in E. inversion H. rewrite size_app_one.
  split; [exact E |]. split; [reflexivity |]. eexists. reflexivity.
Qed.

(** C5.  A default-constructed [TextureHandle], [ShaderHandle] or
    [MeshHandle] reports [IsValid() = false]; a handle returned by
    [CreateTexture] on its success path (module initialised, the native
    texture creation succeeded, the call returned) reports
    [IsValid() = true].  [max_size] is the capacity limit of
    [std::vector<TextureData>], a [size_t] and so below [2^64]. *)
Theorem handle_validity (max_size : Z) (driver : Driver) (desc : TextureDesc)
    (this : GraphicsModule) (textures textures' : list TextureData)
    (device : Addr) (h : TextureHandle) :
  TextureHandle.IsValid TextureHandle.default = false /\
  ShaderHandle.IsValid ShaderHandle.default = false /\
  MeshHandle.IsValid MeshHandle.default = false /\
  ((max_size < uint64_modulus)%Z ->
   m_Initialized this = true ->
   m_Device this = Some device ->
   SUCCEEDED (tc_hr (driver device (texDesc_of desc))) = true ->
   CreateTexture max_size driver desc this textures = Normal (h, textures') ->
   TextureHandle.IsValid h = true /\ texture_id h = size textures').
Proof.
  split; [reflexivity |]. split; [reflexivity |]. split; [reflexivity |].
  intros Hmax Hi Hd Hs Hc.
  assert (Hlt : (size textures < max_size)%Z).
  { unfold CreateTexture, push_back in Hc. rewrite Hi, Hd, Hs in Hc. simpl in Hc.
    destruct (size textures <? max_size)%Z eqn:E; [| discriminate].
    apply Z.ltb_lt. exact E. }
  rewrite (CreateTexture_success max_size driver desc this textures device Hi Hd Hs Hlt) in Hc.
  inversion Hc; subst. clear Hc.
  pose proof (size_nonneg textures) as Hn.
  assert (Hid : to_uint64 (size textures + 1) = (size textures + 1)%Z).
  { unfold to_uint64. apply Z.mod_small. lia. }
  split.
  - unfold TextureHandle.IsValid. simpl. rewrite Hid.
    destruct (Z.eqb_spec (size textures + 1) 0); [lia | reflexivity].
  - simpl. rewrite Hid, size_app_one. reflexivity.
Qed.

(** C5 on the first texture of an initialised module. *)
Lemma handle_validity_witness :
  TextureHandle.IsValid (mkTextureHandle 1) = true.
Proof.
  pose proof (handle_validity Fixtures.max_size_64 Fixtures.driver_ok
                (Fixtures.desc_of_width 16) Fixtures.initialized_module
                [] [Fixtures.data_of_width 16] 7%positive (mkTextureHandle 1))
    as (_ & _ & _ & H).
  apply H; vm_compute; reflexivity.
Defined.

(** ** [CreateTexture] before initialisation *)

(** A module on which no [Initialize] has succeeded since its construction
    is not initialised, whatever the failed attempts left behind. *)
Lemma failed_Initialize_uninitialized (natives : list DeviceCreation) :
  Forall (fun native => SUCCEEDED (dc_hr native) = false) natives ->
  m_Initialized (fold_left (fun this native => snd (Initialize native None this))
                           natives constructor) = false.
Proof.
  assert (G : forall this, m_Initialized this = false ->
            Forall (fun native => SUCCEEDED (dc_hr native) = false) natives ->
            m_Initialized (fold_left (fun this native => snd (Initialize native None this))
                                     natives this) = false).
  { induction natives as [| native rest IH]; intros this Hthis Hall; simpl.
    - exact Hthis.
    - inversion Hall as [| ? ? Hn Hrest]; subst.
      apply IH; [| exact Hrest].
      unfold Initialize, InitializeDirectX. rewrite Hthis, Hn. reflexivity. }
  apply G. reflexivity.
Qed.

(** C3.  On a module that is not initialised, [CreateTexture] returns the
    sentinel invalid handle (id = 0) for every texture description, and
    the texture list is left as it was. *)
Theorem CreateTexture_uninitialized (max_size : Z) (driver : Driver)
    (desc : TextureDesc) (this : GraphicsModule) (textures : list TextureData) :
  IsInitialized this = false ->
  exists h,
    CreateTexture max_size driver desc this textures = Normal (h, textures) /\
    texture_id h = 0%Z /\
    TextureHandle.IsValid h = false.
Proof.
  unfold IsInitialized. intros H. exists TextureHandle.default.
  unfold CreateTexture. rewrite H. simpl. repeat split.
Qed.

(** C3 on a freshly constructed module. *)
Lemma CreateTexture_uninitialized_witness :
  exists h,
    CreateTexture Fixtures.max_size_64 Fixtures.driver_ok
                  (Fixtures.desc_of_width 16) constructor []
    = Normal (h, []) /\
    texture_id h = 0%Z /\
    TextureHandle.IsValid h = false.
Proof.
  apply (CreateTexture_uninitialized Fixtures.max_size_64 Fixtures.driver_ok
           (Fixtures.desc_of_width 16) constructor []).
  reflexivity.
Defined.

(** ** [Initialize] *)

(** [Initialize] has no release or reset of its own: it relies on the
    native call for what is in the members after a failure.  An outcome
    that broke the out-parameter rule would stay in the module. *)
Lemma Initialize_failure_retains_partial_device :
  exists this',
    Initialize Fixtures.device_failed_partial None constructor = (Failure, this') /\
    IsInitialized this' = false /\
    ~ (m_Device this' = None /\ m_Context this' = None).
Proof.
  eexists. split; [reflexivity |]. split; [reflexivity |].
  simpl. intros [H _]. discriminate H.
Qed.

(** The outcomes of [Initialize] for an arbitrary native outcome.  An
    initialised module answers [AlreadyInitialized] and is not changed.
    Otherwise, when the native device creation fails, the answer is
    [Failure].  In both cases [IsInitialized()] is afterwards what it was
    before.  After a [Failure] the device and context members hold what the
    native call left in its out-parameters. *)
Theorem Initialize_outcomes (native : DeviceCreation) (app : option Addr)
    (this : GraphicsModule) :
  (m_Initialized this = true ->
     Initialize native app this = (AlreadyInitialized, this)) /\
  (m_Initialized this = false -> SUCCEEDED (dc_hr native) = false ->
     Initialize native app this
     = (Failure, mkGraphicsModule (dc_device native) (dc_context native) false)) /\
  (forall r this', Initialize native app this = (r, this') -> r <> Success ->
     IsInitialized this' = IsInitialized this /\
     (r = AlreadyInitialized /\ this' = this \/
      r = Failure /\ IsInitialized this = false /\
      m_Device this' = dc_device native /\ m_Context this' = dc_context native /\
      ((m_Device this' = None /\ m_Context this' = None) <->
       (dc_device native = None /\ dc_context native = None)))).
Proof.
  unfold Initialize, InitializeDirectX, IsInitialized.
  split; [| split].
  - intros ->. reflexivity.
  - intros -> ->. reflexivity.
  - intros r this' H Hr.
    destruct (m_Initialized this) eqn:Hi.
    + inversion H; subst. split; [exact Hi |]. left. split; reflexivity.
    + simpl in H. destruct (SUCCEEDED (dc_hr native)); simpl in H;
        inversion H; subst; [congruence |].
      simpl. split; [reflexivity |]. right.
      repeat split; tauto.
Qed.

(** The two outcomes at a failed creation and at an initialised module. *)
Lemma Initialize_outcomes_witness :
  Initialize Fixtures.device_failed None constructor = (Failure, constructor) /\
  Initialize Fixtures.device_ok None Fixtures.initialized_module
  = (AlreadyInitialized, Fixtures.initialized_module).
Proof.
  split.
  - apply (proj1 (proj2 (Initialize_outcomes Fixtures.device_failed None constructor)));
      reflexivity.
  - apply (proj1 (Initialize_outcomes Fixtures.device_ok None Fixtures.initialized_module)).
    reflexivity.
Defined.



(** ** Module metadata *)

(** C10.  The exported [GetModuleInfo] agrees with the accessors of every
    [GraphicsModule] instance: its name is [GetName()]
    ("DirectX11 Graphics"), its version [GetVersion()] ("1.0.0"), its
    priority [GetPriority()] ([ModulePriority::System]). *)
Theorem GetModuleInfo_agrees_with_accessors (this : GraphicsModule) :
  name Exports.GetModuleInfo = GetName this /\
  version Exports.GetModuleInfo = GetVersion this /\
  priority Exports.GetModuleInfo = GetPriority this /\
  GetName this = "DirectX11 Graphics" /\
  GetVersion this = "1.0.0" /\
  GetPriority this = System /\
  ModulePriority_value (priority Exports.GetModuleInfo) = 100%Z.
Proof. repeat split. Qed.

End BackendFacts.

(* ===================================================================== *)
(** * Properties that rest on the member functions modelled from the spec *)
(* ===================================================================== *)

Section LifecycleFacts.
Import Cpp CommonTypes Backend.

(** ** [Shutdown] *)

Lemma Shutdown_uninitialized (this : GraphicsModule) (textures : list TextureData) :
  m_Initialized this = false -> Shutdown this textures = (this, textures).
Proof. unfold Shutdown. intros ->. reflexivity. Qed.

Lemma Shutdown_not_initialized (this : GraphicsModule) (textures : list TextureData) :
  m_Initialized (fst (Shutdown this textures)) = false.
Proof. unfold Shutdown. destruct (m_Initialized this) eqn:E; simpl; auto. Qed.

(** C7.  [Shutdown] is idempotent: after a first call, a second call changes
    neither the module nor the texture list, and [IsInitialized()] is false
    after each of the two calls.  This holds from every state, and on a
    module that was never initialised the first call is a no-op too. *)
Theorem Shutdown_idempotent (this : GraphicsModule) (textures : list TextureData) :
  let once := Shutdown this textures in
  let twice := Shutdown (fst once) (snd once) in
  IsInitialized (fst once) = false /\
  IsInitialized (fst twice) = false /\
  twice = once /\
  Shutdown constructor textures = (constructor, textures).
Proof.
  simpl. unfold IsInitialized.
  pose proof (Shutdown_not_initialized this textures) as H1.
  rewrite (Shutdown_uninitialized _ (snd (Shutdown this textures)) H1).
  simpl. repeat split; try exact H1.
  destruct (Shutdown this textures); reflexivity.
Qed.

(** ** Destruction *)

(** C9.  Destroying a [GraphicsModule] performs the shutdown: the destructor
    is a call of [Shutdown], so [DestroyModule] on a live module, with or
    without an earlier [Shutdown], leaves the object with
    [m_Initialized = false] at the end of its destructor, and only then
    releases its storage. *)
Theorem DestroyModule_runs_Shutdown (w : World) (p : Addr) (this : GraphicsModule) :
  heap w !! p = Some this ->
  exists this' textures',
    destructor this (s_Textures w) = (this', textures') /\
    (this', textures') = Shutdown this (s_Textures w) /\
    m_Initialized this' = false /\
    Exports.DestroyModule (Some p) w = Normal (mkWorld (delete p (heap w)) textures') /\
    heap (mkWorld (delete p (heap w)) textures') !! p = None.
Proof.
  intros Hp.
  destruct (destructor this (s_Textures w)) as [this' textures'] eqn:Hd.
  exists this', textures'. split; [reflexivity |].
  split; [unfold destructor in Hd; congruence |].
  split.
  - unfold destructor in Hd.
    pose proof (Shutdown_not_initialized this (s_Textures w)) as H.
    rewrite Hd in H. exact H.
  - split.
    + unfold Exports.DestroyModule. rewrite Hp, Hd. reflexivity.
    + simpl. apply lookup_delete_eq.
Qed.

(** C9 on an initialised module that holds a texture and was never shut
    down. *)
Lemma DestroyModule_runs_Shutdown_witness :
  let w := mkWorld {[ 5%positive := Fixtures.initialized_module ]}
                   [Fixtures.data_of_width 16] in
  exists this' textures',
    destructor Fixtures.initialized_module (s_Textures w) = (this', textures') /\
    (this', textures') = Shutdown Fixtures.initialized_module (s_Textures w) /\
    m_Initialized this' = false /\
    Exports.DestroyModule (Some 5%positive) w
    = Normal (mkWorld (delete 5%positive (heap w)) textures') /\
    heap (mkWorld (delete 5%positive (heap w)) textures') !! 5%positive = None.
Proof.
  intros w.
  apply (DestroyModule_runs_Shutdown w 5%positive Fixtures.initialized_module).
  reflexivity.
Defined.

(** A module made by [CreateModule] is live at the returned address, not
    initialised, and [DestroyModule] on it returns. *)
Lemma CreateModule_then_DestroyModule (w : World) :
  let '(p, w1) := Exports.CreateModule w in
  exists a, p = Some a /\ heap w !! a = None /\ heap w1 !! a = Some constructor /\
            Exports.DestroyModule p w1 = Normal w.
Proof.
  unfold Exports.CreateModule.
  set (a := fresh (dom (heap w))).
  assert (Hfresh : heap w !! a = None).
  { apply not_elem_of_dom. apply is_fresh. }
  exists a. split; [reflexivity |]. split; [exact Hfresh |].
  split; [apply lookup_insert_eq |].
  unfold Exports.DestroyModule. simpl. rewrite lookup_insert_eq.
  unfold destructor. rewrite Shutdown_uninitialized by reflexivity.
  rewrite delete_insert_eq. rewrite delete_id by exact Hfresh.
  destruct w; reflexivity.
Qed.

(** ** The texture table under destruction *)

(** The lookup agrees with [CreateTexture]: the handle it returns on its
    success path designates the entry it has just stored, and the handles
    issued before keep designating their entries. *)
Lemma CreateTexture_handle_designates (max_size : Z) (driver : Driver)
    (desc : TextureDesc) (this : GraphicsModule) (textures : list TextureData)
    (device : Addr) :
  (max_size < uint64_modulus)%Z ->
  m_Initialized this = true ->
  m_Device this = Some device ->
  SUCCEEDED (tc_hr (driver device (texDesc_of desc))) = true ->
  (size textures < max_size)%Z ->
  exists h textures' data,
    CreateTexture max_size driver desc this textures = Normal (h, textures') /\
    textures' = textures ++ [data] /\
    texture_of h textures' = Some data /\
    forall h0 data0, texture_of h0 textures = Some data0 ->
                     texture_of h0 textures' = Some data0.
Proof.
  intros Hmax Hi Hd Hs Hlt.
  eexists _, _, _. split; [apply CreateTexture_success; eassumption |].
  split; [reflexivity |].
  pose proof (size_nonneg textures) as Hn.
  split.
  - unfold texture_of, TextureHandle.IsValid, to_uint64. simpl texture_id.
    rewrite Z.mod_small by lia.
    destruct (Z.eqb_spec (size textures + 1) 0); [lia |]. simpl negb. cbv iota.
    replace (Z.to_nat (size textures + 1 - 1)) with (length textures)
      by (unfold size; lia).
    rewrite lookup_app_r by lia. rewrite Nat.sub_diag. reflexivity.
  - intros h0 data0. unfold texture_of.
    destruct (TextureHandle.IsValid h0); [| discriminate].
    intros H. apply lookup_app_l_Some. exact H.
Qed.

Lemma DestroyTexture_first (x : TextureData) (rest : list TextureData) :
  DestroyTexture (mkTextureHandle 1) (x :: rest) = rest.
Proof.
  unfold DestroyTexture, TextureHandle.IsValid, size. simpl texture_id.
  replace (1 <=? Z.of_nat (length (x :: rest)))%Z with true
    by (symmetry; apply Z.leb_le; simpl length; lia).
  reflexivity.
Qed.

(** After the first entry is destroyed, the handle [k] designates what the
    handle [k + 1] designated before. *)
Lemma DestroyTexture_first_shifts (textures : list TextureData) (k : Z) :
  (1 <= size textures)%Z -> (2 <= k)%Z ->
  texture_of (mkTextureHandle k) (DestroyTexture (mkTextureHandle 1) textures)
  = texture_of (mkTextureHandle (k + 1)) textures.
Proof.
  intros Hs Hk. destruct textures as [| x rest]; [unfold size in Hs; simpl in Hs; lia |].
  rewrite DestroyTexture_first.
  unfold texture_of, TextureHandle.IsValid. simpl texture_id.
  destruct (Z.eqb_spec k 0); [lia |]. destruct (Z.eqb_spec (k + 1) 0); [lia |].
  simpl negb. cbv iota.
  replace (Z.to_nat (k + 1 - 1)) with (S (Z.to_nat (k - 1))) by lia.
  reflexivity.
Qed.

(** The handle issued last designates nothing once the first entry is
    destroyed, although it designated the last entry before. *)
Lemma DestroyTexture_first_last_dangles (textures : list TextureData) :
  (2 <= size textures)%Z ->
  texture_of (mkTextureHandle (size textures)) textures = last textures /\
  texture_of (mkTextureHandle (size textures))
             (DestroyTexture (mkTextureHandle 1) textures) = None.
Proof.
  intros Hs. split.
  - unfold texture_of, TextureHandle.IsValid. simpl texture_id.
    destruct (Z.eqb_spec (size textures) 0); [lia |]. simpl negb. cbv iota.
    rewrite last_lookup. f_equal. unfold size. lia.
  - rewrite DestroyTexture_first_shifts by lia.
    unfold texture_of, TextureHandle.IsValid. simpl texture_id.
    destruct (Z.eqb_spec (size textures + 1) 0); [lia |]. simpl negb. cbv iota.
    apply lookup_ge_None. unfold size. lia.
Qed.

(** C1 does not hold of the size-based handles.  Three textures are created
    on an initialised module (handles 1, 2, 3); destroying handle 1 leaves
    handle 2 designating the third texture and handle 3 designating
    nothing; the next [CreateTexture] issues handle 3 a second time. *)
Theorem DestroyTexture_first_invalidates_later_handles :
  let this := Fixtures.initialized_module in
  let create := CreateTexture Fixtures.max_size_64 Fixtures.driver_ok in
  let t16 := Fixtures.data_of_width 16 in
  let t32 := Fixtures.data_of_width 32 in
  let t64 := Fixtures.data_of_width 64 in
  let t128 := Fixtures.data_of_width 128 in
  create (Fixtures.desc_of_width 16) this [] = Normal (mkTextureHandle 1, [t16]) /\
  create (Fixtures.desc_of_width 32) this [t16]
  = Normal (mkTextureHandle 2, [t16; t32]) /\
  create (Fixtures.desc_of_width 64) this [t16; t32]
  = Normal (mkTextureHandle 3, [t16; t32; t64]) /\
  texture_of (mkTextureHandle 2) [t16; t32; t64] = Some t32 /\
  texture_of (mkTextureHandle 3) [t16; t32; t64] = Some t64 /\
  DestroyTexture (mkTextureHandle 1) [t16; t32; t64] = [t32; t64] /\
  texture_of (mkTextureHandle 2) [t32; t64] = Some t64 /\
  texture_of (mkTextureHandle 3) [t32; t64] = None /\
  t32 <> t64 /\
  create (Fixtures.desc_of_width 128) this [t32; t64]
  = Normal (mkTextureHandle 3, [t32; t64; t128]).
Proof. vm_compute. repeat split; try reflexivity. discriminate. Qed.

End LifecycleFacts.

(* ===================================================================== *)
(** * Properties of the host application                                  *)
(* ===================================================================== *)

Section HostFacts.
Import Cpp CommonTypes Host.

(** ** The game loop *)

(** With the flag set, the loop uses up every step it is granted: it emits
    one body per step and is never left. *)
Lemma game_loop_running (fuel : nat) (g : Addr) :
  game_loop fuel true g = (concat (repeat (loop_body g) fuel), false).
Proof.
  induction fuel as [| fuel IH]; simpl; [reflexivity |].
  rewrite IH. reflexivity.
Qed.

(** With the flag cleared, the loop is left at the next test, without
    running the body. *)
Lemma game_loop_stopped (fuel : nat) (g : Addr) :
  game_loop (S fuel) false g = ([], true).
Proof. reflexivity. Qed.


(** ** Early returns *)

(** C2 fails on the early return for a missing factory symbol.  When the
    library loads but has no [CreateModule], [Run] returns after four
    events, none of which is a [FreeLibrary]: the handle it acquired is
    never released. *)
Theorem Run_missing_create_skips_FreeLibrary (P : Platform) (fuel : nat)
    (app : Application) (dll : Addr) :
  LoadLibraryA P "GraphicsModule.dll" = Some dll ->
  GetProcAddress P dll "CreateModule" = None ->
  progress (Run P fuel app) = Returned /\
  trace (Run P fuel app)
  = [ cout ("Loading graphics module..." +:+ newline);
      call_LoadLibraryA "GraphicsModule.dll";
      call_GetProcAddress dll "CreateModule";
      cout ("DLL doesn't have CreateModule function!" +:+ newline) ] /\
  existsb is_FreeLibrary (trace (Run P fuel app)) = false /\
  graphicsDLL (app_after (Run P fuel app)) = Holds (Some dll).
Proof.
  intros Hload Hsym. unfold Run. rewrite Hload, Hsym. simpl.
  repeat split.
Qed.

(** C2's failing input: a library without [CreateModule]. *)
Lemma Run_missing_create_skips_FreeLibrary_witness :
  progress (Run Fixtures.platform_without_create 10 Fixtures.fresh_application) = Returned /\
  existsb is_FreeLibrary
    (trace (Run Fixtures.platform_without_create 10 Fixtures.fresh_application)) = false.
Proof.
  pose proof (Run_missing_create_skips_FreeLibrary
                Fixtures.platform_without_create 10 Fixtures.fresh_application
                100%positive eq_refl eq_refl) as (H1 & _ & H3 & _).
  split; [exact H1 | exact H3].
Defined.

(** The other two paths that return do match the claim's discipline: a
    failed load acquires no handle, and a module that is not an
    [IGraphics] is followed by [FreeLibrary]. *)
Lemma Run_other_returns (P : Platform) (fuel : nat) (app : Application) :
  (LoadLibraryA P "GraphicsModule.dll" = None ->
     progress (Run P fuel app) = Returned /\
     graphicsDLL (app_after (Run P fuel app)) = Holds None /\
     length (trace (Run P fuel app)) = 3) /\
  (forall dll createFunc,
     LoadLibraryA P "GraphicsModule.dll" = Some dll ->
     GetProcAddress P dll "CreateModule" = Some createFunc ->
     dynamic_cast_IGraphics P (invoke_create P createFunc) = None ->
     progress (Run P fuel app) = Returned /\
     last (trace (Run P fuel app)) = Some (call_FreeLibrary dll)).
Proof.
  split.
  - intros Hload. unfold Run. rewrite Hload. simpl. repeat split.
  - intros dll createFunc Hload Hsym Hcast. unfold Run.
    rewrite Hload, Hsym, Hcast. simpl. split; reflexivity.
Qed.

(** ** A run that constructs a module *)




End HostFacts.

(* ===================================================================== *)
(** * Further properties of the value types                               *)
(* ===================================================================== *)

Section ValueTypeLaws.
Import Cpp CommonTypes.

(** ** Signs of rounded results *)

(** Rounding gives the requested sign to whatever it returns. *)
Lemma binary_round_aux_sign (s : bool) (m e : Z) (l : location) :
  f32_is_nan (binary_round_aux f32_prec f32_emax s m e l)
  || Bool.eqb (f32_sign_clear (binary_round_aux f32_prec f32_emax s m e l)) (negb s)
  = true.
Proof.
  unfold binary_round_aux.
  destruct (shr_fexp f32_prec f32_emax m e l) as [mrs' e'].
  destruct (shr_fexp f32_prec f32_emax _ e' loc_Exact) as [mrs'' e''].
  destruct (shr_m mrs''); [| destruct (Z.leb _ _) |]; simpl;
    destruct s; reflexivity.
Qed.

Lemma binary_round_aux_nonneg (m e : Z) (l : location) :
  f32_is_nan (binary_round_aux f32_prec f32_emax false m e l)
  || f32_sign_clear (binary_round_aux f32_prec f32_emax false m e l) = true.
Proof.
  pose proof (binary_round_aux_sign false m e l) as H.
  destruct (f32_is_nan _); [reflexivity |].
  simpl in *. destruct (f32_sign_clear _); [reflexivity | discriminate H].
Qed.

Lemma f32_mul_self_nonneg (x : float32) :
  f32_is_nan (f32_mul x x) || f32_sign_clear (f32_mul x x) = true.
Proof.
  destruct x as [s | s | | s m e]; unfold f32_mul; simpl;
    try reflexivity; try (destruct s; reflexivity).
  replace (xorb s s) with false by (destruct s; reflexivity).
  apply binary_round_aux_nonneg.
Qed.

Lemma f32_add_nonneg (x y : float32) :
  f32_is_nan x || f32_sign_clear x = true ->
  f32_is_nan y || f32_sign_clear y = true ->
  f32_is_nan (f32_add x y) || f32_sign_clear (f32_add x y) = true.
Proof.
  destruct x as [sx | sx | | sx mx ex], y as [sy | sy | | sy my ey];
    simpl; intros Hx Hy; try reflexivity;
    try (destruct sx; try discriminate Hx); try (destruct sy; try discriminate Hy);
    try reflexivity.
  unfold f32_add, SFadd, binary_normalize, binary_round. simpl cond_Zopp.
  destruct (shl_align mx ex (Z.min ex ey)) as [mx' ex'].
  destruct (shl_align my ey (Z.min ex ey)) as [my' ey']. simpl fst.
  change (Z.pos mx' + Z.pos my')%Z with (Z.pos (mx' + my')). cbv iota.
  destruct (shl_align (mx' + my') _ _) as [mz ez].
  apply binary_round_aux_nonneg.
Qed.

Lemma sqrtf_nonneg (x : float32) :
  f32_is_nan x || f32_sign_clear x = true ->
  f32_is_nan (sqrtf x) || f32_sign_clear (sqrtf x) = true.
Proof.
  destruct x as [[|] | [|] | | [|] m e]; simpl; intros H; try reflexivity;
    try discriminate H.
  unfold sqrtf, SFsqrt.
  destruct (SFsqrt_core_binary f32_prec f32_emax (Z.pos m) e) as [[mz ez] lz].
  apply binary_round_aux_nonneg.
Qed.

(** X1.  [Length()] is never negative: for every [Vector2] and [Vector3],
    whatever the components (NaN and infinities included), the result is a
    NaN or has a clear sign bit; in particular it is never [-0].  So a
    length that is not greater than zero is [+0] or a NaN. *)
Theorem Length_never_negative (a : Vector2) (b : Vector3) :
  f32_is_nan (Vector2.Length a) || f32_sign_clear (Vector2.Length a) = true /\
  f32_is_nan (Vector3.Length b) || f32_sign_clear (Vector3.Length b) = true /\
  (f32_gt (Vector2.Length a) f32_zero = true \/
   Vector2.Length a = S754_nan \/ Vector2.Length a = S754_zero false) /\
  (f32_gt (Vector3.Length b) f32_zero = true \/
   Vector3.Length b = S754_nan \/ Vector3.Length b = S754_zero false).
Proof.
  assert (H2 : f32_is_nan (Vector2.Length a) || f32_sign_clear (Vector2.Length a) = true).
  { unfold Vector2.Length. apply sqrtf_nonneg, f32_add_nonneg; apply f32_mul_self_nonneg. }
  assert (H3 : f32_is_nan (Vector3.Length b) || f32_sign_clear (Vector3.Length b) = true).
  { unfold Vector3.Length.
    apply sqrtf_nonneg, f32_add_nonneg; [apply f32_add_nonneg |];
      apply f32_mul_self_nonneg. }
  split; [exact H2 |]. split; [exact H3 |].
  split.
  - destruct (Vector2.Length a) as [[|] | [|] | | [|] m e]; simpl in *;
      try discriminate H2; auto.
  - destruct (Vector3.Length b) as [[|] | [|] | | [|] m e]; simpl in *;
      try discriminate H3; auto.
Qed.

(** X2.  [Normalized()] does not guard against an infinite length: when
    [Length()] is [+infinity] (a component is infinite, or the sum of the
    squares overflows) the division is taken and no component of the
    result is a non-zero number: each one is a NaN or a zero. *)
Theorem Normalized_infinite_length (a : Vector2) (b : Vector3) :
  (Vector2.Length a = S754_infinity false ->
   Vector2.Normalized a
   = mkVector2 (f32_div (v2x a) (S754_infinity false))
               (f32_div (v2y a) (S754_infinity false)) /\
   f32_is_nan (v2x (Vector2.Normalized a)) || f32_is_zero (v2x (Vector2.Normalized a)) = true /\
   f32_is_nan (v2y (Vector2.Normalized a)) || f32_is_zero (v2y (Vector2.Normalized a)) = true) /\
  (Vector3.Length b = S754_infinity false ->
   Vector3.Normalized b
   = mkVector3 (f32_div (v3x b) (S754_infinity false))
               (f32_div (v3y b) (S754_infinity false))
               (f32_div (v3z b) (S754_infinity false)) /\
   f32_is_nan (v3x (Vector3.Normalized b)) || f32_is_zero (v3x (Vector3.Normalized b)) = true /\
   f32_is_nan (v3y (Vector3.Normalized b)) || f32_is_zero (v3y (Vector3.Normalized b)) = true /\
   f32_is_nan (v3z (Vector3.Normalized b)) || f32_is_zero (v3z (Vector3.Normalized b)) = true).
Proof.
  split; intros H.
  - unfold Vector2.Normalized. rewrite H. simpl.
    split; [reflexivity |].
    split; [destruct (v2x a) | destruct (v2y a)]; reflexivity.
  - unfold Vector3.Normalized. rewrite H. simpl.
    split; [reflexivity |].
    split; [destruct (v3x b) | split; [destruct (v3y b) | destruct (v3z b)]];
      reflexivity.
Qed.

(** X2 on finite vectors whose squared length overflows: the result is the
    zero vector. *)
Lemma Normalized_infinite_length_witness :
  Vector2.Normalized (mkVector2 (S754_finite false 8388608 104) f32_zero)
  = Vector2.default /\
  Vector3.Normalized (mkVector3 f32_zero (S754_finite false 8388608 104) f32_zero)
  = Vector3.default.
Proof.
  pose proof (Normalized_infinite_length
                (mkVector2 (S754_finite false 8388608 104) f32_zero)
                (mkVector3 f32_zero (S754_finite false 8388608 104) f32_zero))
    as [H2 H3].
  split.
  - rewrite (proj1 (H2 ltac:(vm_compute; reflexivity))). reflexivity.
  - rewrite (proj1 (H3 ltac:(vm_compute; reflexivity))). reflexivity.
Defined.

(** ** Vector addition *)

Lemma f32_add_comm (x y : float32) : f32_add x y = f32_add y x.
Proof.
  destruct x as [[|] | [|] | | sx mx ex], y as [[|] | [|] | | sy my ey];
    try reflexivity.
  unfold f32_add, SFadd. rewrite (Z.min_comm ey ex). f_equal. apply Z.add_comm.
Qed.

(** X3.  [operator+] of [Vector2] and of [Vector3] is commutative for all
    components, infinities and NaN included. *)
Theorem Vector_add_comm (a b : Vector2) (c d : Vector3) :
  Vector2.add a b = Vector2.add b a /\
  Vector3.add c d = Vector3.add d c.
Proof.
  unfold Vector2.add, Vector3.add.
  split; f_equal; apply f32_add_comm.
Qed.

(** ** [Rectangle::Contains] *)

Lemma SFcompare_antisym (x y : float32) :
  SFcompare y x = option_map CompOpp (SFcompare x y).
Proof.
  destruct x as [[|] | [|] | | sx mx ex], y as [[|] | [|] | | sy my ey];
    try reflexivity; try (destruct sx; reflexivity); try (destruct sy; reflexivity).
  simpl. destruct sx, sy; simpl; try reflexivity.
  - rewrite (Z.compare_antisym ex ey).
    destruct (ex ?= ey)%Z; simpl; try reflexivity.
    rewrite (Pos.compare_cont_antisym mx my Eq). reflexivity.
  - rewrite (Z.compare_antisym ex ey).
    destruct (ex ?= ey)%Z; simpl; try reflexivity.
    rewrite (Pos.compare_cont_antisym mx my Eq). reflexivity.
Qed.

(** [x <= p] and [p <= x] together are [p == x]. *)
Lemma f32_between_eq (p x : float32) :
  f32_ge p x && f32_le p x = f32_eq p x.
Proof.
  unfold f32_ge, f32_le, f32_eq, SFleb, SFeqb.
  rewrite (SFcompare_antisym x p).
  destruct (SFcompare x p) as [[| |] |]; reflexivity.
Qed.

(** Adding [+0] to a bound does not change what compares below it. *)
Lemma f32_le_add_zero (p x : float32) :
  f32_le p (f32_add x f32_zero) = f32_le p x.
Proof.
  destruct x as [[|] | [|] | | sx mx ex]; reflexivity.
Qed.

(** X4.  A rectangle of zero width and height contains exactly the points
    that are equal, as floats, to its corner: both bounds are inclusive,
    the two zeros are not told apart, and a corner with a NaN coordinate
    contains nothing. *)
Theorem Rectangle_Contains_degenerate (x y : float32) (point : Vector2) :
  Rectangle.Contains (mkRectangle x y f32_zero f32_zero) point
  = f32_eq (v2x point) x && f32_eq (v2y point) y.
Proof.
  unfold Rectangle.Contains. simpl.
  rewrite !f32_le_add_zero.
  rewrite <- (f32_between_eq (v2x point) x), <- (f32_between_eq (v2y point) y).
  rewrite !andb_assoc. reflexivity.
Qed.

(** X5.  [Rectangle::Contains] is false as soon as a NaN is involved: in a
    coordinate of the point, in the corner, or in the width or height. *)
Theorem Rectangle_Contains_nan (r : Rectangle) (point : Vector2) :
  f32_is_nan (v2x point) || f32_is_nan (v2y point) ||
  f32_is_nan (rx r) || f32_is_nan (ry r) ||
  f32_is_nan (rwidth r) || f32_is_nan (rheight r) = true ->
  Rectangle.Contains r point = false.
Proof.
  destruct r as [x y w h], point as [px py]. unfold Rectangle.Contains. simpl.
  intros H.
  assert (Hle : forall a b, f32_is_nan a || f32_is_nan b = true -> SFleb a b = false).
  { intros a b Hab. destruct a, b; try reflexivity; discriminate Hab. }
  assert (Hadd : forall a b, f32_is_nan a || f32_is_nan b = true ->
                             f32_add a b = S754_nan).
  { intros a b Hab. destruct a, b; try reflexivity; discriminate Hab. }
  unfold f32_ge, f32_le.
  destruct (f32_is_nan px) eqn:Epx.
  { rewrite (Hle x px) by (rewrite Epx; apply orb_true_r). reflexivity. }
  destruct (f32_is_nan x) eqn:Ex.
  { rewrite (Hle x px) by (rewrite Ex; reflexivity). reflexivity. }
  destruct (f32_is_nan w) eqn:Ew.
  { rewrite (Hadd x w) by (rewrite Ew; apply orb_true_r).
    rewrite (Hle px S754_nan) by apply orb_true_r.
    rewrite andb_false_r. reflexivity. }
  destruct (f32_is_nan py) eqn:Epy.
  { rewrite (Hle y py) by (rewrite Epy; apply orb_true_r).
    rewrite andb_false_r. reflexivity. }
  destruct (f32_is_nan y) eqn:Ey.
  { rewrite (Hle y py) by (rewrite Ey; reflexivity).
    rewrite andb_false_r. reflexivity. }
  destruct (f32_is_nan h) eqn:Eh; [| discriminate H].
  rewrite (Hadd y h) by (rewrite Eh; apply orb_true_r).
  rewrite (Hle py S754_nan) by apply orb_true_r.
  apply andb_false_r.
Qed.

(** X5 on a point with a NaN ordinate and the default rectangle. *)
Lemma Rectangle_Contains_nan_witness :
  Rectangle.Contains Rectangle.default (mkVector2 f32_zero S754_nan) = false.
Proof.
  apply (Rectangle_Contains_nan Rectangle.default (mkVector2 f32_zero S754_nan)).
  reflexivity.
Defined.

End ValueTypeLaws.

(* ===================================================================== *)
(** * Further properties of the graphics backend                          *)
(* ===================================================================== *)

Section BackendLaws.
Import Cpp CommonTypes Backend.

(** ** [Initialize] *)

(** What one call of [Initialize] does to the flag, and what it leaves in
    the module when it succeeds. *)
Lemma Initialize_effect (native : DeviceCreation) (app : option Addr)
    (this : GraphicsModule) :
  (fst (Initialize native app this) = Success <->
     m_Initialized this = false /\ SUCCEEDED (dc_hr native) = true) /\
  (fst (Initialize native app this) = Success ->
     snd (Initialize native app this)
     = mkGraphicsModule (dc_device native) (dc_context native) true) /\
  m_Initialized (snd (Initialize native app this))
  = m_Initialized this || SUCCEEDED (dc_hr native).
Proof.
  unfold Initialize, InitializeDirectX.
  destruct (m_Initialized this) eqn:Hi; simpl.
  - rewrite Hi. repeat split; try discriminate; auto.
    intros [H _]; discriminate H.
  - destruct (SUCCEEDED (dc_hr native)); simpl; repeat split; try discriminate; auto.
    intros [_ H]; discriminate H.
Qed.

(** X6.  [Initialize] returns [Success] exactly when the module was not
    initialised and the native device creation succeeded; the module is then
    initialised and holds the device and the context the native call
    produced.  It returns none of the result codes other than [Success],
    [Failure] and [AlreadyInitialized], and afterwards [IsInitialized()] is
    true exactly when it was true before or the native call succeeded. *)
Theorem Initialize_Success_iff (native : DeviceCreation) (app : option Addr)
    (this : GraphicsModule) :
  let r := fst (Initialize native app this) in
  let this' := snd (Initialize native app this) in
  (r = Success <-> m_Initialized this = false /\ SUCCEEDED (dc_hr native) = true) /\
  (r = Success ->
     this' = mkGraphicsModule (dc_device native) (dc_context native) true) /\
  (r = Success \/ r = Failure \/ r = AlreadyInitialized) /\
  IsInitialized this' = m_Initialized this || SUCCEEDED (dc_hr native).
Proof.
  pose proof (Initialize_effect native app this) as (Hiff & Hstate & Hflag).
  simpl. split; [exact Hiff |]. split; [exact Hstate |].
  split; [| exact Hflag].
  unfold Initialize, InitializeDirectX.
  destruct (m_Initialized this); simpl; [auto |].
  destruct (SUCCEEDED (dc_hr native)); simpl; auto.
Qed.

Lemma initialize_all_initialized (natives : list DeviceCreation) (this : GraphicsModule) :
  m_Initialized this = true -> initialize_all natives this = this.
Proof.
  intros H. unfold initialize_all.
  induction natives as [| native rest IH]; simpl; [reflexivity |].
  replace (snd (Initialize native None this)) with this
    by (unfold Initialize; rewrite H; reflexivity).
  exact IH.
Qed.

Lemma initialize_all_flag (natives : list DeviceCreation) (this : GraphicsModule) :
  m_Initialized (initialize_all natives this)
  = m_Initialized this || existsb (fun native => SUCCEEDED (dc_hr native)) natives.
Proof.
  revert this. induction natives as [| native rest IH]; intros this; simpl.
  - rewrite orb_false_r. reflexivity.
  - unfold initialize_all in IH. rewrite IH.
    pose proof (Initialize_effect native None this) as (_ & _ & H).
    rewrite H. symmetry. apply orb_assoc.
Qed.

(** X7.  A module is as initialised as its attempts allow.  After any
    number of [Initialize] calls on a fresh module, [IsInitialized()] is
    true exactly when one of the native device creations succeeded.  A
    failure is not sticky: the first attempt that succeeds natively
    initialises the module, which then holds that attempt's device and
    context, and every later call leaves it as it is. *)
Theorem Initialize_sequence (before after : list DeviceCreation)
    (native : DeviceCreation) :
  IsInitialized (initialize_all before constructor)
  = existsb (fun n => SUCCEEDED (dc_hr n)) before /\
  (Forall (fun n => SUCCEEDED (dc_hr n) = false) before ->
   SUCCEEDED (dc_hr native) = true ->
   fst (Initialize native None (initialize_all before constructor)) = Success /\
   initialize_all (before ++ native :: after) constructor
   = mkGraphicsModule (dc_device native) (dc_context native) true /\
   forall late, fst (Initialize late None
                       (initialize_all (before ++ native :: after) constructor))
                = AlreadyInitialized).
Proof.
  split.
  - unfold IsInitialized. rewrite initialize_all_flag. reflexivity.
  - intros Hbefore Hnative.
    assert (Hflag : m_Initialized (initialize_all before constructor) = false).
    { rewrite initialize_all_flag. simpl.
      induction before as [| n rest IH]; [reflexivity |].
      inversion Hbefore as [| ? ? Hn Hrest]; subst. simpl. rewrite Hn. auto. }
    pose proof (Initialize_effect native None (initialize_all before constructor))
      as (Hiff & Hstate & _).
    assert (Hs : fst (Initialize native None (initialize_all before constructor)) = Success).
    { apply Hiff. split; assumption. }
    assert (Hall : initialize_all (before ++ native :: after) constructor
                   = mkGraphicsModule (dc_device native) (dc_context native) true).
    { unfold initialize_all. rewrite fold_left_app. simpl.
      fold (initialize_all before constructor). rewrite (Hstate Hs).
      apply initialize_all_initialized. reflexivity. }
    split; [exact Hs |]. split; [exact Hall |].
    intros late. rewrite Hall. reflexivity.
Qed.

(** X7 on a failed attempt followed by a successful one and a third
    call. *)
Lemma Initialize_sequence_witness :
  initialize_all [Fixtures.device_failed_partial; Fixtures.device_ok; Fixtures.device_failed]
                 constructor
  = Fixtures.initialized_module.
Proof.
  pose proof (Initialize_sequence [Fixtures.device_failed_partial]
                [Fixtures.device_failed] Fixtures.device_ok) as [_ H].
  apply H; [repeat constructor | reflexivity].
Defined.

(** ** [CreateTexture] *)

(** The two ways [CreateTexture] returns. *)
Lemma CreateTexture_returned_cases (max_size : Z) (driver : Driver)
    (desc : TextureDesc) (this : GraphicsModule)
    (textures textures' : list TextureData) (h : TextureHandle) :
  (max_size < uint64_modulus)%Z ->
  CreateTexture max_size driver desc this textures = Normal (h, textures') ->
  (TextureHandle.IsValid h = true /\
   texture_id h = size textures' /\
   exists device,
     m_Device this = Some device /\
     textures' = textures ++
       [mkTextureData (tc_texture (driver device (texDesc_of desc)))
                      Indeterminate (width desc) (height desc)]) \/
  (TextureHandle.IsValid h = false /\ textures' = textures).
Proof.
  intros Hmax H.
  unfold CreateTexture, push_back in H.
  destruct (m_Initialized this); simpl in H.
  2:{ right. inversion H. split; reflexivity. }
  destruct (m_Device this) as [device |]; [| discriminate].
  destruct (SUCCEEDED _).
  2:{ right. inversion H. split; reflexivity. }
  destruct (size textures <? max_size)%Z eqn:E; [| discriminate].
  apply Z.ltb_lt in E. inversion H; subst. clear H. left.
  pose proof (size_nonneg textures) as Hn.
  rewrite size_app_one.
  assert (Hid : to_uint64 (size textures + 1) = (size textures + 1)%Z).
  { unfold to_uint64. apply Z.mod_small. lia. }
  split; [| split; [exact Hid | exists device; split; reflexivity]].
  unfold TextureHandle.IsValid. simpl. rewrite Hid.
  destruct (Z.eqb_spec (size textures + 1) 0); [lia | reflexivity].
Qed.

(** X8.  The handle tells whether a texture was stored.  When
    [CreateTexture] returns, either the handle is valid and exactly one
    entry was appended to the list (the native texture pointer, the
    description's width and height, a view that is never assigned), the
    handle being the new size of the list; or the handle is invalid and the
    list is untouched.  In both cases every entry stored before is still
    at its position. *)
Theorem CreateTexture_valid_iff_stored (max_size : Z) (driver : Driver)
    (desc : TextureDesc) (this : GraphicsModule)
    (textures textures' : list TextureData) (h : TextureHandle) :
  (max_size < uint64_modulus)%Z ->
  CreateTexture max_size driver desc this textures = Normal (h, textures') ->
  ((TextureHandle.IsValid h = true /\
    texture_id h = size textures' /\
    exists device,
      m_Device this = Some device /\
      textures' = textures ++
        [mkTextureData (tc_texture (driver device (texDesc_of desc)))
                       Indeterminate (width desc) (height desc)]) \/
   (TextureHandle.IsValid h = false /\ textures' = textures)) /\
  (forall i data, textures !! i = Some data -> textures' !! i = Some data).
Proof.
  intros Hmax H.
  pose proof (CreateTexture_returned_cases _ _ _ _ _ _ _ Hmax H) as Hcases.
  split; [exact Hcases |].
  intros i data Hi.
  destruct Hcases as [(_ & _ & device & _ & ->) | [_ ->]]; [| exact Hi].
  apply lookup_app_l_Some. exact Hi.
Qed.

(** X8 on the first texture of an initialised module. *)
Lemma CreateTexture_valid_iff_stored_witness :
  ((TextureHandle.IsValid (mkTextureHandle 1) = true /\
    texture_id (mkTextureHandle 1) = size [Fixtures.data_of_width 16] /\
    exists device,
      m_Device Fixtures.initialized_module = Some device /\
      [Fixtures.data_of_width 16] = [] ++
        [mkTextureData
           (tc_texture (Fixtures.driver_ok device (texDesc_of (Fixtures.desc_of_width 16))))
           Indeterminate (width (Fixtures.desc_of_width 16))
           (height (Fixtures.desc_of_width 16))]) \/
   (TextureHandle.IsValid (mkTextureHandle 1) = false /\
    [Fixtures.data_of_width 16] = [])) /\
  (forall i data, ([] : list TextureData) !! i = Some data ->
                  [Fixtures.data_of_width 16] !! i = Some data).
Proof.
  apply (CreateTexture_valid_iff_stored Fixtures.max_size_64 Fixtures.driver_ok
           (Fixtures.desc_of_width 16) Fixtures.initialized_module
           [] [Fixtures.data_of_width 16] (mkTextureHandle 1));
    vm_compute; reflexivity.
Defined.

(** X9.  [CreateTexture] looks at the width, the height and the mip level
    count of the description only: the format, the usage and the debug name
    are ignored (the native format is always R8G8B8A8_UNORM), so two
    descriptions that agree on the three numbers give the same result. *)
Theorem CreateTexture_ignores_format (max_size : Z) (driver : Driver)
    (desc1 desc2 : TextureDesc) (this : GraphicsModule)
    (textures : list TextureData) :
  width desc1 = width desc2 ->
  height desc1 = height desc2 ->
  mipLevels desc1 = mipLevels desc2 ->
  texDesc_of desc1 = texDesc_of desc2 /\
  Format (texDesc_of desc1) = DXGI_FORMAT_R8G8B8A8_UNORM /\
  CreateTexture max_size driver desc1 this textures
  = CreateTexture max_size driver desc2 this textures.
Proof.
  intros Hw Hh Hm.
  assert (Ht : texDesc_of desc1 = texDesc_of desc2).
  { unfold texDesc_of. rewrite Hw, Hh, Hm. reflexivity. }
  split; [exact Ht |]. split; [reflexivity |].
  unfold CreateTexture. rewrite Ht, Hw, Hh. reflexivity.
Qed.

(** X9 on a colour texture and a depth render target of the same size. *)
Lemma CreateTexture_ignores_format_witness :
  CreateTexture Fixtures.max_size_64 Fixtures.driver_ok Fixtures.desc_plain
                Fixtures.initialized_module []
  = CreateTexture Fixtures.max_size_64 Fixtures.driver_ok Fixtures.desc_depth
                  Fixtures.initialized_module [].
Proof.
  apply (CreateTexture_ignores_format Fixtures.max_size_64 Fixtures.driver_ok
           Fixtures.desc_plain Fixtures.desc_depth Fixtures.initialized_module []);
    reflexivity.
Defined.

(** X10.  Handles are numbered by the shared list, not by the instance.
    When a texture is stored through one module and the next one through
    any module, the same or another instance, the second handle is the
    first plus one: consecutive handles differ, and a second instance does
    not start again at 1. *)
Theorem CreateTexture_consecutive_handles (max_size : Z) (driver1 driver2 : Driver)
    (desc1 desc2 : TextureDesc) (this1 this2 : GraphicsModule)
    (textures textures1 textures2 : list TextureData) (h1 h2 : TextureHandle) :
  (max_size < uint64_modulus)%Z ->
  CreateTexture max_size driver1 desc1 this1 textures = Normal (h1, textures1) ->
  TextureHandle.IsValid h1 = true ->
  CreateTexture max_size driver2 desc2 this2 textures1 = Normal (h2, textures2) ->
  TextureHandle.IsValid h2 = true ->
  texture_id h2 = (texture_id h1 + 1)%Z /\
  TextureHandle.eqb h1 h2 = false /\
  size textures2 = (size textures + 2)%Z.
Proof.
  intros Hmax H1 V1 H2 V2.
  destruct (CreateTexture_returned_cases _ _ _ _ _ _ _ Hmax H1)
    as [(_ & Hid1 & d1 & _ & E1) | [V1' _]]; [| congruence].
  destruct (CreateTexture_returned_cases _ _ _ _ _ _ _ Hmax H2)
    as [(_ & Hid2 & d2 & _ & E2) | [V2' _]]; [| congruence].
  assert (S1 : size textures1 = (size textures + 1)%Z)
    by (rewrite E1; apply size_app_one).
  assert (S2 : size textures2 = (size textures1 + 1)%Z)
    by (rewrite E2; apply size_app_one).
  split; [lia |]. split; [| lia].
  unfold TextureHandle.eqb. apply Z.eqb_neq. lia.
Qed.

(** X10 on two instances that share the list. *)
Lemma CreateTexture_consecutive_handles_witness :
  texture_id (mkTextureHandle 2) = (texture_id (mkTextureHandle 1) + 1)%Z /\
  TextureHandle.eqb (mkTextureHandle 1) (mkTextureHandle 2) = false /\
  size [Fixtures.data_of_width 16; Fixtures.data_of_width 32]
  = (size ([] : list TextureData) + 2)%Z.
Proof.
  apply (CreateTexture_consecutive_handles Fixtures.max_size_64
           Fixtures.driver_ok Fixtures.driver_ok
           (Fixtures.desc_of_width 16) (Fixtures.desc_of_width 32)
           Fixtures.initialized_module Fixtures.initialized_module_2
           [] [Fixtures.data_of_width 16]
           [Fixtures.data_of_width 16; Fixtures.data_of_width 32]
           (mkTextureHandle 1) (mkTextureHandle 2));
    vm_compute; reflexivity.
Defined.

(** X11.  After an [Initialize] that succeeded and produced a device,
    [CreateTexture] is defined and, below the capacity of the list,
    returns: with a valid handle, the new size of the list, and the list
    extended by the one new entry when the driver creates the texture; with
    the invalid handle and the very same list when it does not. *)
Theorem CreateTexture_after_Initialize (max_size : Z) (driver : Driver)
    (native : DeviceCreation) (app : option Addr) (device : Addr)
    (desc : TextureDesc) (this : GraphicsModule) (textures : list TextureData) :
  (max_size < uint64_modulus)%Z ->
  (size textures < max_size)%Z ->
  m_Initialized this = false ->
  SUCCEEDED (dc_hr native) = true ->
  dc_device native = Some device ->
  exists h textures',
    CreateTexture max_size driver desc (snd (Initialize native app this)) textures
    = Normal (h, textures') /\
    TextureHandle.IsValid h = SUCCEEDED (tc_hr (driver device (texDesc_of desc))) /\
    textures'
    = (if SUCCEEDED (tc_hr (driver device (texDesc_of desc)))
       then textures ++
            [mkTextureData (tc_texture (driver device (texDesc_of desc)))
                           Indeterminate (width desc) (height desc)]
       else textures) /\
    texture_id h
    = (if SUCCEEDED (tc_hr (driver device (texDesc_of desc)))
       then size textures + 1 else 0)%Z /\
    size textures'
    = (size textures
       + if SUCCEEDED (tc_hr (driver device (texDesc_of desc))) then 1 else 0)%Z.
Proof.
  intros Hmax Hlt Hi Hs Hd.
  unfold Initialize, InitializeDirectX. rewrite Hi, Hs. simpl.
  unfold CreateTexture, push_back. simpl. rewrite Hd.
  destruct (SUCCEEDED (tc_hr (driver device (texDesc_of desc)))) eqn:E.
  - pose proof (size_nonneg textures) as Hn.
    assert (Hid : to_uint64 (size textures + 1) = (size textures + 1)%Z).
    { unfold to_uint64. apply Z.mod_small. lia. }
    apply Z.ltb_lt in Hlt. rewrite Hlt.
    rewrite size_app_one, Hid.
    eexists _, _. split; [reflexivity |].
    rewrite size_app_one.
    split; [| repeat split].
    unfold TextureHandle.IsValid. simpl.
    destruct (Z.eqb_spec (size textures + 1) 0); [lia | reflexivity].
  - eexists _, _. split; [reflexivity |].
    split; [reflexivity |]. split; [reflexivity |]. split; [reflexivity | lia].
Qed.

(** X11 on a fresh module, a working device and a refusing driver. *)
Lemma CreateTexture_after_Initialize_witness :
  exists h textures',
    CreateTexture Fixtures.max_size_64 Fixtures.driver_refusing
                  (Fixtures.desc_of_width 16)
                  (snd (Initialize Fixtures.device_ok None constructor)) []
    = Normal (h, textures') /\
    TextureHandle.IsValid h = false /\
    textures' = [] /\
    texture_id h = 0%Z /\
    size textures' = 0%Z.
Proof.
  apply (CreateTexture_after_Initialize Fixtures.max_size_64 Fixtures.driver_refusing
           Fixtures.device_ok None 7%positive (Fixtures.desc_of_width 16)
           constructor []); vm_compute; reflexivity.
Defined.

(** ** [CreateModule] *)

(** X12.  [CreateModule] returns a non-null pointer to a new object that
    aliases no live module; the object is not initialised and holds no
    device; the modules that exist and the shared texture list are left
    as they are; and a second [CreateModule] returns a different
    pointer. *)
Theorem CreateModule_fresh (w : World) :
  exists p,
    fst (Exports.CreateModule w) = Some p /\
    heap w !! p = None /\
    heap (snd (Exports.CreateModule w)) !! p = Some constructor /\
    IsInitialized constructor = false /\
    (forall q, q <> p -> heap (snd (Exports.CreateModule w)) !! q = heap w !! q) /\
    s_Textures (snd (Exports.CreateModule w)) = s_Textures w /\
    fst (Exports.CreateModule (snd (Exports.CreateModule w))) <> Some p.
Proof.
  unfold Exports.CreateModule. simpl.
  set (p := fresh (dom (heap w))).
  assert (Hfresh : heap w !! p = None) by (apply not_elem_of_dom, is_fresh).
  exists p. split; [reflexivity |]. split; [exact Hfresh |].
  split; [apply lookup_insert_eq |]. split; [reflexivity |].
  split; [intros q Hq; apply lookup_insert_ne; congruence |].
  split; [reflexivity |].
  intros Heq. inversion Heq as [Hp].
  pose proof (is_fresh (dom (<[p := constructor]> (heap w)))) as Hnew.
  rewrite Hp in Hnew. apply Hnew. apply elem_of_dom.
  rewrite lookup_insert_eq. eauto.
Qed.

End BackendLaws.

(* ===================================================================== *)
(** * Further properties of the host application                          *)
(* ===================================================================== *)

Section HostLaws.
Import Cpp CommonTypes Host.

Lemma existsb_loop_bodies (f : Event -> bool) (g : Addr) (n : nat) :
  existsb f (loop_body g) = false ->
  existsb f (concat (repeat (loop_body g) n)) = false.
Proof.
  intros H. induction n as [| n IH]; [reflexivity |].
  change (concat (repeat (loop_body g) (S n)))
    with (loop_body g ++ concat (repeat (loop_body g) n)).
  rewrite existsb_app, H, IH. reflexivity.
Qed.

Lemma filter_loop_bodies (g : Addr) (n : nat) :
  List.filter is_module_call (concat (repeat (loop_body g) n))
  = concat (repeat (loop_body g) n).
Proof.
  induction n as [| n IH]; [reflexivity |].
  simpl. f_equal. f_equal. f_equal. exact IH.
Qed.

Lemma Run_paths (P : Platform) (fuel : nat) (app : Application) : RunPath P fuel app.
Proof.
  destruct (LoadLibraryA P "GraphicsModule.dll") as [dll |] eqn:Hload.
  2:{ apply path_no_library; [exact Hload |]. unfold Run. rewrite Hload. reflexivity. }
  destruct (GetProcAddress P dll "CreateModule") as [createFunc |] eqn:Hsym.
  2:{ apply (path_no_factory _ _ _ dll); [exact Hload | exact Hsym |].
      unfold Run. rewrite Hload, Hsym. reflexivity. }
  destruct (dynamic_cast_IGraphics P (invoke_create P createFunc)) as [g |] eqn:Hcast.
  - apply (path_game_loop _ _ _ dll createFunc g); try assumption.
    unfold Run. rewrite Hload, Hsym, Hcast, game_loop_running. reflexivity.
  - apply (path_not_graphics _ _ _ dll createFunc); try assumption.
    unfold Run. rewrite Hload, Hsym, Hcast. reflexivity.
Qed.

(** X13.  No run of the host, on any platform and however long it runs,
    calls [Shutdown] or the destroy function: a module that was created is
    never shut down and never destroyed. *)
Theorem Run_never_shuts_down (P : Platform) (fuel : nat) (app : Application) :
  existsb is_Shutdown (trace (Run P fuel app)) = false /\
  existsb is_destroy (trace (Run P fuel app)) = false.
Proof.
  destruct (Run_paths P fuel app) as [_ -> | dll _ _ -> | dll f _ _ _ -> | dll f g _ _ _ ->];
    simpl; try (split; reflexivity).
  split; apply existsb_loop_bodies; reflexivity.
Qed.

(** X14.  [Run] returns exactly when it has obtained no graphics module:
    the library did not load, or it has no [CreateModule], or what the
    factory returned is not an [IGraphics] (or is null).  Once a graphics
    module is obtained, [Run] never returns. *)
Theorem Run_returns_iff_no_module (P : Platform) (fuel : nat) (app : Application) :
  (progress (Run P fuel app) = InLoop <->
   exists dll createFunc g,
     LoadLibraryA P "GraphicsModule.dll" = Some dll /\
     GetProcAddress P dll "CreateModule" = Some createFunc /\
     dynamic_cast_IGraphics P (invoke_create P createFunc) = Some g) /\
  (progress (Run P fuel app) = Returned <->
   LoadLibraryA P "GraphicsModule.dll" = None \/
   exists dll,
     LoadLibraryA P "GraphicsModule.dll" = Some dll /\
     (GetProcAddress P dll "CreateModule" = None \/
      exists createFunc,
        GetProcAddress P dll "CreateModule" = Some createFunc /\
        dynamic_cast_IGraphics P (invoke_create P createFunc) = None)).
Proof.
  destruct (Run_paths P fuel app)
    as [Hl -> | dll Hl Hs -> | dll f Hl Hs Hc -> | dll f g Hl Hs Hc ->]; simpl.
  - split; split; try discriminate; try (intros _; reflexivity); auto.
    intros (d & c & g & H & _). congruence.
  - split; split; try discriminate; try (intros _; reflexivity).
    + intros (d & c & g & H1 & H2 & _). congruence.
    + intros _. right. exists dll. auto.
  - split; split; try discriminate; try (intros _; reflexivity).
    + intros (d & c & g & H1 & H2 & H3). congruence.
    + intros _. right. exists dll. split; [exact Hl |]. right. exists f. auto.
  - split; split; try discriminate; try (intros _; reflexivity).
    + intros _. exists dll, f, g. auto.
    + intros [H | (d & H1 & [H2 | (c & H2 & H3)])]; congruence.
Qed.

(** X15.  The library is unloaded on one path only: [FreeLibrary] is called
    exactly when the library loaded, [CreateModule] resolved and its result
    is not an [IGraphics].  It is then the last event, on the handle that
    [LoadLibraryA] returned.  On every other path a loaded library stays
    loaded. *)
Theorem FreeLibrary_iff_not_graphics (P : Platform) (fuel : nat) (app : Application) :
  (existsb is_FreeLibrary (trace (Run P fuel app)) = true <->
   exists dll createFunc,
     LoadLibraryA P "GraphicsModule.dll" = Some dll /\
     GetProcAddress P dll "CreateModule" = Some createFunc /\
     dynamic_cast_IGraphics P (invoke_create P createFunc) = None) /\
  (forall dll, In (call_FreeLibrary dll) (trace (Run P fuel app)) ->
     LoadLibraryA P "GraphicsModule.dll" = Some dll /\
     last (trace (Run P fuel app)) = Some (call_FreeLibrary dll) /\
     progress (Run P fuel app) = Returned).
Proof.
  destruct (Run_paths P fuel app)
    as [Hl -> | dll Hl Hs -> | dll f Hl Hs Hc -> | dll f g Hl Hs Hc ->]; simpl.
  - split.
    + split; [discriminate |]. intros (d & c & H & _). congruence.
    + intros d [H | [H | [H | []]]]; discriminate H.
  - split.
    + split; [discriminate |]. intros (d & c & H1 & H2 & _). congruence.
    + intros d [H | [H | [H | [H | []]]]]; discriminate H.
  - split.
    + split; [eauto |]. reflexivity.
    + intros d [H | [H | [H | [H | [H | []]]]]]; try discriminate H.
      inversion H; subst. auto.
  - split.
    + split.
      * intros H. rewrite (existsb_loop_bodies is_FreeLibrary g fuel eq_refl) in H.
        discriminate H.
      * intros (d & c & H1 & H2 & H3). congruence.
    + intros d [H | [H | [H | [H | [H | H]]]]]; try discriminate H.
      exfalso.
      assert (E : existsb is_FreeLibrary (concat (repeat (loop_body g) fuel)) = true).
      { apply existsb_exists. exists (call_FreeLibrary d). split; [exact H | reflexivity]. }
      rewrite (existsb_loop_bodies is_FreeLibrary g fuel eq_refl) in E. discriminate E.
Qed.

(** X16.  When [Run] returns, no member function of any module has been
    called.  Otherwise the member calls are one [Initialize] on the module
    obtained from the factory, followed by whole loop bodies [Clear],
    [DrawText], [Update] on that same module: [Initialize] is called once
    and before every other call. *)
Theorem Run_module_calls (P : Platform) (fuel : nat) (app : Application) :
  match progress (Run P fuel app) with
  | Returned => List.filter is_module_call (trace (Run P fuel app)) = []
  | InLoop =>
    exists g,
      graphics (app_after (Run P fuel app)) = Holds (Some g) /\
      List.filter is_module_call (trace (Run P fuel app))
      = call_Initialize g :: concat (repeat (loop_body g) fuel)
  end.
Proof.
  destruct (Run_paths P fuel app)
    as [Hl -> | dll Hl Hs -> | dll f Hl Hs Hc -> | dll f g Hl Hs Hc ->]; simpl;
    try reflexivity.
  exists g. split; [reflexivity |]. f_equal. apply filter_loop_bodies.
Qed.

(** X17.  When the factory's result is not an [IGraphics], the object it
    created is abandoned: [Run] calls the factory, then unloads the library
    and returns, without any call on the object and without handing it to
    the destroy function. *)
Theorem Run_not_graphics_abandons_module (P : Platform) (fuel : nat)
    (app : Application) (dll createFunc : Addr) :
  LoadLibraryA P "GraphicsModule.dll" = Some dll ->
  GetProcAddress P dll "CreateModule" = Some createFunc ->
  dynamic_cast_IGraphics P (invoke_create P createFunc) = None ->
  progress (Run P fuel app) = Returned /\
  trace (Run P fuel app)
  = [ cout ("Loading graphics module..." +:+ newline);
      call_LoadLibraryA "GraphicsModule.dll";
      call_GetProcAddress dll "CreateModule";
      call_createFunc createFunc;
      call_FreeLibrary dll ] /\
  graphics (app_after (Run P fuel app)) = Holds None.
Proof.
  intros Hload Hsym Hcast. unfold Run. rewrite Hload, Hsym, Hcast.
  repeat split.
Qed.

(** X17 on a library whose factory returns an object of another type. *)
Lemma Run_not_graphics_abandons_module_witness :
  progress (Run Fixtures.platform_wrong_type 10 Fixtures.fresh_application) = Returned /\
  last (trace (Run Fixtures.platform_wrong_type 10 Fixtures.fresh_application))
  = Some (call_FreeLibrary 100%positive).
Proof.
  pose proof (Run_not_graphics_abandons_module Fixtures.platform_wrong_type 10
                Fixtures.fresh_application 100%positive 201%positive
                eq_refl eq_refl eq_refl) as (Hp & Ht & _).
  split; [exact Hp |]. rewrite Ht. reflexivity.
Defined.

(** X18.  What [Run] leaves in the members of the [Application]:
    [graphicsDLL] always holds what [LoadLibraryA] returned; [graphics] is
    assigned only once [CreateModule] has resolved, so after a failed load
    or a missing factory it holds what it held before, nothing for a
    default-constructed [Application]. *)
Theorem Run_members (P : Platform) (fuel : nat) (app : Application) :
  graphicsDLL (app_after (Run P fuel app))
  = Holds (LoadLibraryA P "GraphicsModule.dll") /\
  match LoadLibraryA P "GraphicsModule.dll" with
  | None => graphics (app_after (Run P fuel app)) = graphics app
  | Some dll =>
    match GetProcAddress P dll "CreateModule" with
    | None => graphics (app_after (Run P fuel app)) = graphics app
    | Some createFunc =>
      graphics (app_after (Run P fuel app))
      = Holds (dynamic_cast_IGraphics P (invoke_create P createFunc))
    end
  end.
Proof.
  destruct (Run_paths P fuel app)
    as [Hl -> | dll Hl Hs -> | dll f Hl Hs Hc -> | dll f g Hl Hs Hc ->]; simpl;
    rewrite Hl; try rewrite Hs; try rewrite Hc; split; reflexivity.
Qed.

End HostLaws.
